(** * esy: a shallow embedding of [esy/client.py]

    The client wraps bravado's Swagger client for the ESI API.  This file
    embeds its classes: [ESICallableOperation], [ESIPageGenerator] and
    [ESIRequestsClient] as state-passing functions over an explicit world
    (the requests that reached the network and the state of the pluggable
    cache), the facade [ESIClient] with [ESIResourceDecorator] over the
    download of the Swagger spec, and proves properties of pagination, error
    mapping, caching, authorization and the facade about them. *)

From Stdlib Require Import ZArith Lia Ascii String.
From stdpp Require Import base option strings pretty list gmap sorting.

#[local] Open Scope Z_scope.
#[local] Set Warnings "-register-all".

(** ** Python values *)

(** The Python values that flow through the client: request parameters,
    unmarshalled payloads and parsed JSON bodies.  A [dict] keeps its
    insertion order, which [str] of a dict shows, hence the association list. *)
Inductive PyVal : Type :=
| PNone
| PBool (b : bool)
| PInt (z : Z)
| PFloat (literal : string)
| PStr (s : string)
| PList (items : list PyVal)
| PDict (items : list (string * PyVal)).

Definition dict : Type := list (string * PyVal).

(** [key in d] *)
Definition dict_contains (d : dict) (k : string) : bool :=
  existsb (fun kv => String.eqb (fst kv) k) d.

(** [d.get(k, default)] *)
Fixpoint dict_get (d : dict) (k : string) (default : PyVal) : PyVal :=
  match d with
  | [] => default
  | (k', v) :: d' => if String.eqb k' k then v else dict_get d' k default
  end.

(** [d[k] = v]: an existing key keeps its position, a new one goes last. *)
Fixpoint dict_set (d : dict) (k : string) (v : PyVal) : dict :=
  match d with
  | [] => [(k, v)]
  | (k', v') :: d' =>
      if String.eqb k' k then (k, v) :: d' else (k', v') :: dict_set d' k v
  end.

(** ** Strings: the parts of [str] and [int] the client relies on *)

Definition is_upper (c : ascii) : bool :=
  (65 <=? nat_of_ascii c)%nat && (nat_of_ascii c <=? 90)%nat.

Definition lower_ascii (c : ascii) : ascii :=
  if is_upper c then ascii_of_nat (nat_of_ascii c + 32) else c.

(** [s.lower()] on ASCII text. *)
Fixpoint lower (s : string) : string :=
  match s with
  | EmptyString => EmptyString
  | String c s' => String (lower_ascii c) (lower s')
  end.

(** Whitespace as [int] sees it in a [str] of Latin-1 text (header values are
    decoded as Latin-1): the ASCII characters 9 to 13 and 32, and the
    Latin-1 characters 0x85 and 0xA0, which [int] maps to a space first. *)
Definition is_space (c : ascii) : bool :=
  let n := nat_of_ascii c in
  ((9 <=? n)%nat && (n <=? 13)%nat) || (n =? 32)%nat
  || (n =? 133)%nat || (n =? 160)%nat.

Definition is_digit (c : ascii) : bool :=
  (48 <=? nat_of_ascii c)%nat && (nat_of_ascii c <=? 57)%nat.

Definition digit_value (c : ascii) : Z := Z.of_nat (nat_of_ascii c) - 48.

Fixpoint lstrip (l : list ascii) : list ascii :=
  match l with
  | c :: l' => if is_space c then lstrip l' else l
  | [] => []
  end.

(** What the scan of a run of digits and underscores gives: the value of the
    digits, their number, whether the run ends in an underscore, and the
    text after the run. *)
Record digit_run : Type := {
  run_value : Z;
  run_digits : nat;
  run_open : bool;
  run_rest : list ascii
}.

(** The scan of [PyLong_FromString]: digits, with single underscores between
    them (PEP 515); [None] when two underscores meet. *)
Fixpoint scan_digits (acc : Z) (digits : nat) (after_us : bool)
    (l : list ascii) : option digit_run :=
  match l with
  | c :: l' =>
      if is_digit c
      then scan_digits (acc * 10 + digit_value c) (S digits) false l'
      else if Ascii.eqb c "_"%char
      then (if after_us then None else scan_digits acc digits true l')
      else Some {| run_value := acc; run_digits := digits;
                   run_open := after_us; run_rest := l |}
  | [] => Some {| run_value := acc; run_digits := digits;
                  run_open := after_us; run_rest := [] |}
  end.

(** The default of [sys.get_int_max_str_digits()]. *)
Definition int_max_str_digits : nat := 4300.

(** What [int(s)] makes of a string, base 10: a value, or one of its two
    [ValueError]s. *)
Inductive int_outcome : Type :=
| IntValue (z : Z)
| IntInvalid
| IntTooLong (digits : nat).

(** [PyLong_FromString] on the text of a [str]: leading whitespace, an
    optional sign, the run of digits, trailing whitespace.  The run is
    checked for its length before the text after it is looked at. *)
Definition int_parse (s : string) : int_outcome :=
  let l := lstrip (list_ascii_of_string s) in
  let '(negative, l) :=
    match l with
    | c :: l' =>
        if Ascii.eqb c "-"%char then (true, l')
        else if Ascii.eqb c "+"%char then (false, l')
        else (false, l)
    | [] => (false, [])
    end in
  match l with
  | c :: _ =>
      if Ascii.eqb c "_"%char then IntInvalid
      else
        match scan_digits 0 0 false l with
        | None => IntInvalid
        | Some run =>
            if run_open run then IntInvalid
            else if (int_max_str_digits <? run_digits run)%nat
            then IntTooLong (run_digits run)
            else if (run_digits run =? 0)%nat then IntInvalid
            else
              match lstrip (run_rest run) with
              | [] => IntValue (if negative : bool then - run_value run
                                else run_value run)
              | _ :: _ => IntInvalid
              end
        end
  | [] => IntInvalid
  end.

(** [int(s)] for a string [s]; [None] stands for the [ValueError]. *)
Definition int_of_str (s : string) : option Z :=
  match int_parse s with
  | IntValue z => Some z
  | _ => None
  end.

(** ** HTTP headers *)

(** requests' [CaseInsensitiveDict]: a map keyed by the lower-cased header
    name. *)
Definition ci_get (h : gmap string string) (name : string) : option string :=
  h !! lower name.

Definition ci_set (h : gmap string string) (name value : string)
  : gmap string string :=
  <[lower name := value]> h.

Definition ci_of_list (l : list (string * string)) : gmap string string :=
  fold_left (fun h kv => ci_set h (fst kv) (snd kv)) l ∅.

(** ** Requests and responses *)

(** [requests.Request] as bravado builds it from the request parameters. *)
Module Request.
Record t : Type := mk {
  url : string;
  params : dict;
  auth : PyVal;
  headers : list (string * string);
  method : string
}.

Definition set_params (r : t) (p : dict) : t :=
  {| url := url r; params := p; auth := auth r;
     headers := headers r; method := method r |}.
End Request.

(** The response as [RequestsResponseAdapter] shows it, together with the
    payload bravado unmarshals from it. *)
Module Response.
Record t : Type := mk {
  status_code : Z;
  headers : gmap string string;
  text : string;
  swagger_result : PyVal
}.
End Response.

(** [RequestsFutureAdapter(session, request, misc_options)]: the session is
    its header set. *)
Module RequestsFuture.
Record t : Type := mk {
  session_headers : gmap string string;
  request : Request.t
}.

Definition set_request (f : t) (r : Request.t) : t :=
  {| session_headers := session_headers f; request := r |}.
End RequestsFuture.

(** What one network call puts on the wire: the request as it is at the time
    of sending and the headers of the prepared request (the request's own
    headers laid over the session's). *)
Module Sent.
Record t : Type := mk {
  request : Request.t;
  headers : gmap string string
}.
End Sent.

Definition prepare_headers (f : RequestsFuture.t) : gmap string string :=
  fold_left (fun h kv => ci_set h (fst kv) (snd kv))
            (Request.headers (RequestsFuture.request f))
            (RequestsFuture.session_headers f).

Definition prepare (f : RequestsFuture.t) : Sent.t :=
  {| Sent.request := RequestsFuture.request f;
     Sent.headers := prepare_headers f |}.

(** ** Dates *)

Inductive tzinfo : Type := UTC.

(** The nine-field time tuple of [email.utils.parsedate]. *)
Record struct_time : Type := {
  tm_year : Z; tm_mon : Z; tm_mday : Z;
  tm_hour : Z; tm_min : Z; tm_sec : Z;
  tm_wday : Z; tm_yday : Z; tm_isdst : Z
}.

Record datetime_t : Type := {
  year : Z; month : Z; day : Z;
  hour : Z; minute : Z; second : Z; microsecond : Z;
  tz : tzinfo
}.

Definition is_leap (y : Z) : bool :=
  (y mod 4 =? 0) && (negb (y mod 100 =? 0) || (y mod 400 =? 0)).

Definition days_in_month (y m : Z) : Z :=
  if m =? 2 then (if is_leap y then 29 else 28)
  else if (m =? 4) || (m =? 6) || (m =? 9) || (m =? 11) then 30
  else 31.

(** [datetime(y, mo, d, h, mi, s, us, tz)]; [None] is the [ValueError] of a
    field out of range. *)
Definition datetime (y mo d h mi s us : Z) (zone : tzinfo) : option datetime_t :=
  if (1 <=? y) && (y <=? 9999) && (1 <=? mo) && (mo <=? 12)
     && (1 <=? d) && (d <=? days_in_month y mo)
     && (0 <=? h) && (h <=? 23) && (0 <=? mi) && (mi <=? 59)
     && (0 <=? s) && (s <=? 59) && (0 <=? us) && (us <=? 999999)
  then Some {| year := y; month := mo; day := d; hour := h; minute := mi;
               second := s; microsecond := us; tz := zone |}
  else None.

(** ** Exceptions *)

(** Modelled from the spec: [esy/exceptions.py] is not among the sources.  The
    spec lists a generic API error, a not-found error, a forbidden error and a
    missing-authorization error, each a distinct signal type; they are the
    first four constructors, each with the one argument the client raises it
    with, and [str] of such an exception is [str] of that argument, as for
    any class that inherits [Exception] unchanged.  The others are bravado's
    HTTP errors (by status, as [make_http_exception] picks them) and the
    built-in exceptions the client can meet. *)
Inductive exn : Type :=
| ESIError (arg : PyVal)
| ESINotFound (arg : PyVal)
| ESIForbidden (arg : PyVal)
| ESIAuthorizationError (arg : PyVal)
| HTTPBadRequest (response : Response.t)
| HTTPForbidden (response : Response.t)
| HTTPNotFound (response : Response.t)
| HTTPInternalServerError (response : Response.t)
| HTTPError (response : Response.t)
| JSONDecodeError (msg : string)
| ValueError (msg : string)
| TypeError (msg : string)
| AttributeError (msg : string)
| SwaggerMappingError (msg : string)
| AssertionError
| StopIteration.

(** bravado's [make_http_exception]: the exception class follows the status. *)
Definition make_http_exception (r : Response.t) : exn :=
  let s := Response.status_code r in
  if s =? 400 then HTTPBadRequest r
  else if s =? 403 then HTTPForbidden r
  else if s =? 404 then HTTPNotFound r
  else if s =? 500 then HTTPInternalServerError r
  else HTTPError r.

Inductive Result (A : Type) : Type :=
| Ok (a : A)
| Raise (e : exn).
Arguments Ok {A} a.
Arguments Raise {A} e.

(** ** The monad of the embedding: state and exceptions *)

(** A computation over a state [S] ends with a value or a raised exception;
    the state changes made before a [raise] stay, as in Python. *)
Definition M (S A : Type) : Type := S -> Result A * S.

#[global] Instance M_ret {S} : MRet (M S) := fun A a s => (Ok a, s).

#[global] Instance M_bind {S} : MBind (M S) := fun A B f m s =>
  match m s with
  | (Ok a, s') => f a s'
  | (Raise e, s') => (Raise e, s')
  end.

Definition raise {S A} (e : exn) : M S A := fun s => (Raise e, s).

Definition gets {S A} (f : S -> A) : M S A := fun s => (Ok (f s), s).

Definition modify {S} (f : S -> S) : M S unit := fun s => (Ok tt, f s).

(** [try: m except Exception as ex: handler ex] *)
Definition try_except {S A} (m : M S A) (handler : exn -> M S A) : M S A :=
  fun s =>
    match m s with
    | (Ok a, s') => (Ok a, s')
    | (Raise e, s') => handler e s'
    end.

(** ** The pluggable cache *)

(** What [getattr(obj, name, None)] finds: nothing, a value that cannot be
    called, or a method. *)
Inductive attr (F : Type) : Type :=
| Missing
| NotCallable
| Callable (f : F).
Arguments Missing {F}.
Arguments NotCallable {F}.
Arguments Callable {F} f.

(** [callable(getattr(obj, name, None))] *)
Definition callable {F} (a : attr F) : bool :=
  match a with Callable _ => true | _ => false end.

(** A cache object is duck-typed: three attributes over a state [CS] of the
    cache's own.  [get] answers the stored (payload, page count) or [None]. *)
Record CacheObject (CS : Type) : Type := {
  cache_get : attr (CS -> Z -> option (PyVal * Z));
  cache_set : attr (CS -> Z -> PyVal * Z -> datetime_t -> CS);
  cache_contains : attr (CS -> Z -> bool)
}.
Arguments cache_get {CS} _.
Arguments cache_set {CS} _.
Arguments cache_contains {CS} _.

(** ** The classes' data *)

Record ESIRequestsClient (CS : Type) : Type := {
  user_agent : string;
  client_cache : option (CacheObject CS)
}.
Arguments user_agent {CS} _.
Arguments client_cache {CS} _.

(** A bravado-core operation, as far as the client reads it: the security
    requirements, the declared parameters by name, and the HTTP client of its
    Swagger spec. *)
Record Operation (CS : Type) : Type := {
  security_specs : list (gmap string (list string));
  op_params : gmap string PyVal;
  http_client : ESIRequestsClient CS
}.
Arguments security_specs {CS} _.
Arguments op_params {CS} _.
Arguments http_client {CS} _.

Record ESICallableOperation (CS : Type) : Type := {
  co_operation : Operation CS;
  require_authorization : bool;
  paginated : bool
}.
Arguments co_operation {CS} _.
Arguments require_authorization {CS} _.
Arguments paginated {CS} _.

(** The generator's fields; the response adapter and the response callbacks
    it also holds go to bravado's [HttpFuture] as they are and are left
    out. *)
Record ESIPageGenerator (CS : Type) : Type := {
  requests_future : RequestsFuture.t;
  operation : option (Operation CS);
  page : Z;
  num_pages : Z;
  stop : bool;
  cache : option (CacheObject CS)
}.
Arguments requests_future {CS} _.
Arguments operation {CS} _.
Arguments page {CS} _.
Arguments num_pages {CS} _.
Arguments stop {CS} _.
Arguments cache {CS} _.

(** What [ESIRequestsClient.request] returns: the lazy generator of a
    paginated operation, or the resolved value of any other. *)
Inductive RequestResult (CS : Type) : Type :=
| Generator (g : ESIPageGenerator CS)
| Value (v : PyVal).
Arguments Generator {CS} g.
Arguments Value {CS} v.

(** The request parameters [construct_request] builds. *)
Record RequestParams : Type := {
  rp_method : string;
  rp_url : string;
  rp_params : dict;
  rp_headers : list (string * string)
}.

(** The world outside the objects: the calls that reached the network, in
    order, and the state of the client's cache. *)
Record World (CS : Type) : Type := {
  net_log : list Sent.t;
  cache_store : CS
}.
Arguments net_log {CS} _.
Arguments cache_store {CS} _.

(** ** The runtime the client runs on *)

(** Python's built-ins, the libraries the client imports and the remote
    server; none of them is code of the repository.  [json_loads] answers
    the message of the [JSONDecodeError] on the left; [parsedate_str] is
    [email.utils.parsedate] on a string; [server n sent] is the response to
    the call [sent] made after [n] earlier calls. *)
Class Runtime (CS : Type) : Type := {
  py_repr : PyVal -> string;
  hash_str : string -> Z;
  json_loads : string -> string + PyVal;
  parsedate_str : string -> option struct_time;
  http_error_str : Response.t -> string;
  default_headers : gmap string string;
  construct_request : Operation CS -> dict -> Result RequestParams;
  server : nat -> Sent.t -> Response.t
}.

(** ** Hashing: the built-in [hash] on the key tuple *)

(** CPython's hash of an [int] on a 64-bit build: the value reduced modulo
    the Mersenne prime 2^61 - 1, with the sign kept, and -1 (the error
    marker) replaced by -2. *)
Definition PyHASH_MODULUS : Z := 2 ^ 61 - 1.

Definition long_hash (n : Z) : Z :=
  let x := Z.sgn n * (Z.abs n mod PyHASH_MODULUS) in
  if x =? -1 then -2 else x.

(** The casts between [Py_hash_t] (signed) and [Py_uhash_t] (unsigned). *)
Definition to_uhash (h : Z) : Z := h mod 2 ^ 64.

Definition to_hash (u : Z) : Z := if u <? 2 ^ 63 then u else u - 2 ^ 64.

Definition PyHASH_XXPRIME_1 : Z := 11400714785074694791.
Definition PyHASH_XXPRIME_2 : Z := 14029467366897019727.
Definition PyHASH_XXPRIME_5 : Z := 2870177450012600261.

(** [_PyHASH_XXROTATE]: rotate a 64-bit word left by 31. *)
Definition PyHASH_XXROTATE (x : Z) : Z :=
  Z.lor (Z.shiftl x 31 mod 2 ^ 64) (Z.shiftr x 33).

(** One round of CPython's [tuplehash] (3.8 and later): mix the hash of the
    next item into the accumulator. *)
Definition tuplehash_round (acc lane : Z) : Z :=
  (PyHASH_XXROTATE ((acc + to_uhash lane * PyHASH_XXPRIME_2) mod 2 ^ 64)
   * PyHASH_XXPRIME_1) mod 2 ^ 64.

Definition tuplehash_acc (lanes : list Z) : Z :=
  (fold_left tuplehash_round lanes PyHASH_XXPRIME_5
   + Z.lxor (Z.of_nat (length lanes)) (Z.lxor PyHASH_XXPRIME_5 3527539))
  mod 2 ^ 64.

(** [hash] of a tuple whose items hash to [lanes]; it reads nothing of the
    items but their hashes.  An accumulator of all ones would read as the
    error marker -1 and is replaced. *)
Definition tuplehash (lanes : list Z) : Z :=
  let acc := tuplehash_acc lanes in
  if acc =? 2 ^ 64 - 1 then 1546275796 else to_hash acc.

(** The tuple [_get_cache_key] hashes: the URL, [str] of the params, of the
    auth, of the headers and of the method, and the page number. *)
Record KeyTuple : Type := {
  k_url : string;
  k_params : string;
  k_auth : string;
  k_headers : string;
  k_method : string;
  k_page : Z
}.

Section Builtins.
Context {CS : Type} `{!Runtime CS}.

(** [str(v)]: a string is itself, anything else shows its [repr]. *)
Definition py_str (v : PyVal) : string :=
  match v with
  | PStr s => s
  | _ => py_repr v
  end.

(** [str(ex)] *)
Definition exn_str (e : exn) : string :=
  match e with
  | ESIError a | ESINotFound a | ESIForbidden a | ESIAuthorizationError a =>
      py_str a
  | HTTPBadRequest r | HTTPForbidden r | HTTPNotFound r
  | HTTPInternalServerError r | HTTPError r => http_error_str r
  | JSONDecodeError m | ValueError m | TypeError m | AttributeError m
  | SwaggerMappingError m => m
  | AssertionError | StopIteration => EmptyString
  end.

(** [type(v).__name__] *)
Definition type_name (v : PyVal) : string :=
  match v with
  | PNone => "NoneType"
  | PBool _ => "bool"
  | PInt _ => "int"
  | PFloat _ => "float"
  | PStr _ => "str"
  | PList _ => "list"
  | PDict _ => "dict"
  end.

(** [str] of the [ValueError] of [int(s)]: the literal is shown by the
    first 200 characters of its [repr]. *)
Definition int_error (s : string) : string :=
  match int_parse s with
  | IntTooLong digits =>
      "Exceeds the limit (4300 digits) for integer string conversion: "
      +:+ "value has " +:+ pretty digits
      +:+ " digits; use sys.set_int_max_str_digits() to increase the limit"
  | _ =>
      "invalid literal for int() with base 10: "
      +:+ String.substring 0 200 (py_repr (PStr s))
  end.

(** [int(s)] *)
Definition py_int {S} (s : string) : M S Z :=
  match int_of_str s with
  | Some z => mret z
  | None => raise (ValueError (int_error s))
  end.

(** [json.loads(s)] *)
Definition loads {S} (s : string) : M S PyVal :=
  match json_loads s with
  | inr v => mret v
  | inl msg => raise (JSONDecodeError msg)
  end.

(** [v.get(k, default)]: only a dict has the method. *)
Definition py_get {S} (v : PyVal) (k : string) (default : PyVal) : M S PyVal :=
  match v with
  | PDict d => mret (dict_get d k default)
  | _ =>
      raise (AttributeError ("'" +:+ type_name v
                             +:+ "' object has no attribute 'get'"))
  end.

(** [email.utils.parsedate(data)]: nothing to parse gives [None]. *)
Definition parsedate (data : option string) : option struct_time :=
  data ≫= parsedate_str.

(** The expiry of line 118: [datetime] applied to the items of
    [parsedate(data)[:7]] and [pytz.UTC].  Slicing [None] is a [TypeError];
    the first seven fields of the tuple fill year to microsecond. *)
Definition expires_of {S} (data : option string) : M S datetime_t :=
  match parsedate data with
  | None => raise (TypeError "'NoneType' object is not subscriptable")
  | Some t =>
      match datetime (tm_year t) (tm_mon t) (tm_mday t)
                     (tm_hour t) (tm_min t) (tm_sec t) (tm_wday t) UTC with
      | Some d => mret d
      | None => raise (ValueError "datetime field out of range")
      end
  end.

(** [hash] of the key tuple: five strings and an integer. *)
Definition hash_key_tuple (t : KeyTuple) : Z :=
  tuplehash [hash_str (k_url t); hash_str (k_params t); hash_str (k_auth t);
             hash_str (k_headers t); hash_str (k_method t);
             long_hash (k_page t)].

End Builtins.

(** ** [ESIPageGenerator] *)

Module ESIPageGenerator.

(** A method runs on the generator it belongs to and on the world. *)
Definition state (CS : Type) : Type := ESIPageGenerator CS * World CS.

Section Methods.
Context {CS : Type} `{!Runtime CS}.
#[local] Abbreviation state := (state CS).

Definition set_num_pages (n : Z) (s : state) : state :=
  let g := fst s in
  ({| requests_future := requests_future g; operation := operation g;
      page := page g; num_pages := n; stop := stop g; cache := cache g |},
   snd s).

Definition set_page (p : Z) (s : state) : state :=
  let g := fst s in
  ({| requests_future := requests_future g; operation := operation g;
      page := p; num_pages := num_pages g; stop := stop g;
      cache := cache g |},
   snd s).

Definition set_stop (b : bool) (s : state) : state :=
  let g := fst s in
  ({| requests_future := requests_future g; operation := operation g;
      page := page g; num_pages := num_pages g; stop := b;
      cache := cache g |},
   snd s).

(** [self.requests_future.request.params[k] = v] *)
Definition set_request_param (k : string) (v : PyVal) (s : state) : state :=
  let g := fst s in
  let f := requests_future g in
  let r := RequestsFuture.request f in
  ({| requests_future :=
        RequestsFuture.set_request f
          (Request.set_params r (dict_set (Request.params r) k v));
      operation := operation g; page := page g; num_pages := num_pages g;
      stop := stop g; cache := cache g |},
   snd s).

Definition log_call (sent : Sent.t) (s : state) : state :=
  (fst s, {| net_log := net_log (snd s) ++ [sent];
             cache_store := cache_store (snd s) |}).

Definition set_cache_store (c : CS) (s : state) : state :=
  (fst s, {| net_log := net_log (snd s); cache_store := c |}).

(** Lines 74-87. *)
Definition __init__ (requests_future : RequestsFuture.t)
    (operation : option (Operation CS)) (cache : option (CacheObject CS))
  : Result (ESIPageGenerator CS) :=
  let self := {| requests_future := requests_future; operation := operation;
                 page := 1; num_pages := 1; stop := false; cache := cache |} in
  match cache with
  | Some c =>
      if negb (callable (cache_get c)) then Raise AssertionError
      else if negb (callable (cache_set c)) then Raise AssertionError
      else if negb (callable (cache_contains c)) then Raise AssertionError
      else Ok self
  | None => Ok self
  end.

Definition key_tuple (self : ESIPageGenerator CS) : KeyTuple :=
  let r := RequestsFuture.request (requests_future self) in
  {| k_url := Request.url r;
     k_params := py_str (PDict (Request.params r));
     k_auth := py_str (Request.auth r);
     k_headers :=
       py_str (PDict (map (fun kv => (fst kv, PStr (snd kv)))
                          (Request.headers r)));
     k_method := py_str (PStr (Request.method r));
     k_page := page self |}.

(** Lines 92-100. *)
Definition _get_cache_key (self : ESIPageGenerator CS) : Z :=
  hash_key_tuple (key_tuple self).

(** Lines 102-107: [HttpFuture(...).result()] with [also_return_response].
    The prepared request goes to the server; bravado answers the unmarshalled
    payload with the response for a 2xx status and raises the HTTP error of
    the status for any other. *)
Definition _send : M state (PyVal * Response.t) :=
  self ← gets fst;
  n ← gets (fun s => length (net_log (snd s)));
  let sent := prepare (requests_future self) in
  modify (log_call sent);;
  let response := server n sent in
  if (200 <=? Response.status_code response)
     && (Response.status_code response <? 300)
  then mret (Response.swagger_result response, response)
  else raise (make_http_exception response).

(** [key in self.cache] *)
Definition cache_has (c : CacheObject CS) (key : Z) : M state bool :=
  match cache_contains c with
  | Callable f => gets (fun s => f (cache_store (snd s)) key)
  | _ => raise (TypeError "argument of type 'cache' is not iterable")
  end.

(** [data, num_pages = self.cache.get(key)] *)
Definition cache_lookup (c : CacheObject CS) (key : Z) : M state (PyVal * Z) :=
  match cache_get c with
  | Callable f =>
      v ← gets (fun s => f (cache_store (snd s)) key);
      match v with
      | Some entry => mret entry
      | None => raise (TypeError "cannot unpack non-iterable NoneType object")
      end
  | NotCallable => raise (TypeError "object is not callable")
  | Missing => raise (AttributeError "object has no attribute 'get'")
  end.

(** [self.cache.set(key, value, expires)] *)
Definition cache_put (c : CacheObject CS) (key : Z) (value : PyVal * Z)
    (expires : datetime_t) : M state unit :=
  match cache_set c with
  | Callable f =>
      modify (fun s => set_cache_store (f (cache_store (snd s)) key value expires) s)
  | NotCallable => raise (TypeError "object is not callable")
  | Missing => raise (AttributeError "object has no attribute 'set'")
  end.

(** [int(response.headers.get('x-pages', '1'))], lines 117 and 124. *)
Definition x_pages (response : Response.t) : M state Z :=
  py_int (default "1" (ci_get (Response.headers response) "x-pages")).

(** Lines 109-126. *)
Definition result : M state PyVal :=
  self ← gets fst;
  match cache self with
  | Some c =>
      let key := _get_cache_key self in
      hit ← cache_has c key;
      if hit : bool then
        '(data, n) ← cache_lookup c key;
        modify (set_num_pages n);;
        mret data
      else
        '(data, response) ← _send;
        n ← x_pages response;
        modify (set_num_pages n);;
        expires ← expires_of (ci_get (Response.headers response) "expires");
        self' ← gets fst;
        cache_put c key (data, num_pages self') expires;;
        mret data
  | None =>
      '(data, response) ← _send;
      n ← x_pages response;
      modify (set_num_pages n);;
      mret data
  end.

(** Lines 128-140. *)
Definition get : M state PyVal :=
  try_except result (fun ex =>
    match ex with
    | HTTPInternalServerError _ | HTTPBadRequest _ =>
        raise (ESIError (PStr (exn_str ex)))
    | HTTPNotFound response =>
        try_except
          (error_msg ← loads (Response.text response);
           arg ← py_get error_msg "error" (PStr "Not found");
           raise (ESINotFound arg))
          (fun ex => raise (ESINotFound (PStr (exn_str ex))))
    | HTTPForbidden _ => raise (ESIForbidden (PStr "Access denied"))
    | _ => raise ex
    end).

(** Lines 142-151. *)
Definition __next__ : M state PyVal :=
  self ← gets fst;
  if stop self then raise StopIteration
  else
    modify (set_request_param "page" (PInt (page self)));;
    swagger_result ← result;
    self ← gets fst;
    modify (set_page (page self + 1));;
    self ← gets fst;
    (if page self >? num_pages self then modify (set_stop true) else mret tt);;
    mret swagger_result.

(** Iterating the generator the way a [for] loop or [list()] does: advance
    until [StopIteration]; any other exception ends the loop and reaches the
    caller.  [fuel] bounds the number of advances. *)
Fixpoint iterate (fuel : nat) (s : state) : option (Result (list PyVal) * state) :=
  match fuel with
  | O => None
  | S fuel' =>
      match __next__ s with
      | (Raise StopIteration, s') => Some (Ok [], s')
      | (Raise e, s') => Some (Raise e, s')
      | (Ok v, s') =>
          match iterate fuel' s' with
          | Some (Ok vs, s'') => Some (Ok (v :: vs), s'')
          | other => other
          end
      end
  end.

End Methods.
End ESIPageGenerator.

(** ** [ESIRequestsClient] *)

Module ESIRequestsClient.
Section Methods.
Context {CS : Type} `{!Runtime CS}.

(** Lines 159-162. *)
Definition __init__ (user_agent : string) (cache : option (CacheObject CS))
  : ESIRequestsClient CS :=
  {| user_agent := user_agent; client_cache := cache |}.

(** [RequestsClient.authenticated_request]: the [requests.Request] of the
    parameters.  [ESIRequestsClient] configures no authenticator, so the
    request carries no [auth]. *)
Definition authenticated_request (p : RequestParams) : Request.t :=
  {| Request.url := rp_url p; Request.params := rp_params p;
     Request.auth := PNone; Request.headers := rp_headers p;
     Request.method := rp_method p |}.

(** Lines 167-174: the headers of the session.  [if authorization_token:]
    holds for a token that is neither [None] nor empty. *)
Definition session (self : ESIRequestsClient CS)
    (authorization_token : option string) : gmap string string :=
  let headers := default_headers in
  let headers :=
    match authorization_token with
    | Some token =>
        if negb (String.eqb token "")
        then ci_set headers "Authorization" ("Bearer " +:+ token)
        else headers
    | None => headers
    end in
  ci_set headers "User-Agent" (user_agent self).

(** ['page' in operation.params] *)
Definition has_page (operation : Operation CS) : bool :=
  match op_params operation !! "page" with
  | Some _ => true
  | None => false
  end.

(** Lines 164-193. *)
Definition request (self : ESIRequestsClient CS) (request_params : RequestParams)
    (operation : option (Operation CS)) (authorization_token : option string)
  : M (World CS) (RequestResult CS) :=
  fun w =>
    let requests_future :=
      {| RequestsFuture.session_headers := session self authorization_token;
         RequestsFuture.request := authenticated_request request_params |} in
    let generator :=
      ESIPageGenerator.__init__ requests_future operation (client_cache self) in
    if match operation with Some op => has_page op | None => false end
    then
      match generator with
      | Ok g => (Ok (Generator g), w)
      | Raise e => (Raise e, w)
      end
    else
      match generator with
      | Ok g =>
          match ESIPageGenerator.get (g, w) with
          | (Ok v, s) => (Ok (Value v), snd s)
          | (Raise e, s) => (Raise e, snd s)
          end
      | Raise e => (Raise e, w)
      end.

End Methods.
End ESIRequestsClient.

(** ** [ESICallableOperation] *)

Module ESICallableOperation.
Section Methods.
Context {CS : Type} `{!Runtime CS}.

(** ['evesso' in spec] *)
Definition has_evesso (spec : gmap string (list string)) : bool :=
  match spec !! "evesso" with
  | Some _ => true
  | None => false
  end.

(** Lines 29-34. *)
Definition __init__ (operation : Operation CS) : ESICallableOperation CS :=
  {| co_operation := operation;
     require_authorization := existsb has_evesso (security_specs operation);
     paginated := ESIRequestsClient.has_page operation |}.

(** Lines 36-67.  [construct_request] builds the request parameters from the
    keyword arguments (the request options among them) and may reject them;
    it touches no network. *)
Definition __call__ (self : ESICallableOperation CS) (_token : option string)
    (op_kwargs : dict) : M (World CS) (RequestResult CS) :=
  match construct_request (co_operation self) op_kwargs with
  | Raise e => raise e
  | Ok request_params =>
      if require_authorization self
         && match _token with None => true | Some _ => false end
      then raise (ESIAuthorizationError
                    (PStr "Missing required authorization token"))
      else
        ESIRequestsClient.request (http_client (co_operation self))
          request_params (Some (co_operation self)) _token
  end.

End Methods.
End ESICallableOperation.

(** ** The Swagger spec and its download *)

(** A bravado-core operation as the spec declares it: the security
    requirements and the parameters by name.  Its HTTP client is the one of
    the spec it belongs to. *)
Record OperationDecl : Type := {
  decl_security_specs : list (gmap string (list string));
  decl_params : gmap string PyVal
}.

(** A bravado-core [Resource]: a name and the operations by name. *)
Record Resource : Type := {
  res_name : string;
  res_operations : gmap string OperationDecl
}.

(** The [Spec] bravado-core builds, as far as the client reads it. *)
Record Spec : Type := {
  origin_url : string;
  resources : gmap string Resource
}.

(** The operation object of a declaration in a spec whose HTTP client is
    [client]: [operation.swagger_spec.http_client] is that client. *)
Definition bind_operation {CS} (client : ESIRequestsClient CS)
    (decl : OperationDecl) : Operation CS :=
  {| security_specs := decl_security_specs decl;
     op_params := decl_params decl;
     http_client := client |}.

(** The response of [requests.get], as far as [get_swagger_spec] reads it. *)
Record Download : Type := {
  dl_status : Z;
  dl_reason : string;
  dl_url : string;
  dl_text : string
}.

(** [resp.raise_for_status()] of requests: the message of the [HTTPError] it
    raises for a status from 400 to 599, [None] when it returns. *)
Definition raise_for_status (resp : Download) : option string :=
  let s := dl_status resp in
  if (400 <=? s) && (s <? 500)
  then Some (pretty s +:+ " Client Error: " +:+ dl_reason resp
             +:+ " for url: " +:+ dl_url resp)
  else if (500 <=? s) && (s <? 600)
  then Some (pretty s +:+ " Server Error: " +:+ dl_reason resp
             +:+ " for url: " +:+ dl_url resp)
  else None.

Inductive level : Type := DEBUG | ERROR.

(** The world of the download: the URLs requested so far, in order, and the
    records written to the module's logger. *)
Record Downloads : Type := {
  requested : list string;
  log_records : list (level * string)
}.

(** What the download runs on, none of it code of the repository:
    [requests_get n url] is [requests.get(url)] after [n] earlier downloads,
    the text of the exception it raises or its response;
    [elapsed n] is [str] of the time that download and its parsing took;
    [from_dict] is bravado-core's [Spec.from_dict], which builds the
    resources of a spec or raises. *)
Class Loader (CS : Type) : Type := {
  requests_get : nat -> string -> string + Download;
  elapsed : nat -> string;
  from_dict : PyVal -> string -> ESIRequestsClient CS -> bool
              -> Result (gmap string Resource)
}.

Module ESIClient.

Record t (CS : Type) : Type := {
  http_client : ESIRequestsClient CS;
  swagger_spec : Spec
}.
Arguments http_client {CS} _.
Arguments swagger_spec {CS} _.

Section Methods.
Context {CS : Type} `{!Runtime CS} `{!Loader CS}.

(** Lines 201-210.  The client and the spec hold the same HTTP client
    object; the record keeps it once. *)
Definition __init__ (swagger_spec : PyVal) (esi_endpoint user_agent : string)
    (use_models : bool) (cache : option (CacheObject CS)) : Result (t CS) :=
  let http_client := ESIRequestsClient.__init__ user_agent cache in
  match from_dict swagger_spec esi_endpoint http_client use_models with
  | Ok resources =>
      Ok {| http_client := http_client;
            swagger_spec := {| origin_url := esi_endpoint;
                               resources := resources |} |}
  | Raise e => Raise e
  end.

(** Lines 212-214. *)
Definition _generate_esi_endpoint (endpoint datasource : string) : string :=
  endpoint +:+ "?datasource=" +:+ datasource.

Definition record_download (url : string) (d : Downloads) : Downloads :=
  {| requested := requested d ++ [url]; log_records := log_records d |}.

Definition log (l : level) (msg : string) (d : Downloads) : Downloads :=
  {| requested := requested d; log_records := log_records d ++ [(l, msg)] |}.

(** The body of the [try] of lines 247-253 up to the parsed spec: [str] of
    the exception raised in it, or the spec. *)
Definition download (n : nat) (endpoint : string) : string + PyVal :=
  match requests_get n endpoint with
  | inl msg => inl msg
  | inr resp =>
      match raise_for_status resp with
      | Some msg => inl msg
      | None => json_loads (dl_text resp)
      end
  end.

(** Lines 235-256. *)
Definition get_swagger_spec (endpoint datasource : string)
  : M Downloads PyVal :=
  let endpoint := _generate_esi_endpoint endpoint datasource in
  n ← gets (fun d => length (requested d));
  modify (record_download endpoint);;
  match download n endpoint with
  | inr spec =>
      modify (log DEBUG ("Swagger spec downloaded and parsed in "
                         +:+ elapsed n +:+ " seconds"));;
      mret spec
  | inl ex =>
      modify (log ERROR ("Could not connect to ESI: " +:+ ex));;
      raise (ESIError (PStr ex))
  end.

(** Lines 216-233, on explicit arguments. *)
Definition get_client (user_agent : string) (use_models : bool)
    (endpoint datasource : string) (cache : option (CacheObject CS))
  : M Downloads (t CS) :=
  let target := _generate_esi_endpoint endpoint datasource in
  spec ← get_swagger_spec endpoint datasource;
  match __init__ spec target user_agent use_models cache with
  | Ok client => mret client
  | Raise e => raise e
  end.

(** Lines 258-260. *)
Definition cache (self : t CS) : option (CacheObject CS) :=
  client_cache (http_client self).

(** Lines 262-264: the assignment changes the HTTP client object, which the
    spec and its operations see as well. *)
Definition set_cache (cache : option (CacheObject CS)) (self : t CS) : t CS :=
  {| http_client := {| user_agent := user_agent (http_client self);
                       client_cache := cache |};
     swagger_spec := swagger_spec self |}.

(** [dir(self)]: bravado's [SwaggerClient.__dir__] answers the names of
    the resources, which [dir] sorts. *)
Definition __dir__ (self : t CS) : list string :=
  merge_sort (fun a b => Is_true (String.leb a b))
             (fst <$> map_to_list (resources (swagger_spec self))).

(** Lines 266-275, which run for an [item] that is no attribute of the
    client object itself: the resource the decorator wraps.  A bravado-core
    resource is always truthy, so [if not resource] tests for the [None] of
    a name the spec does not have. *)
Definition __getattr__ (self : t CS) (item : string) : Result Resource :=
  match resources (swagger_spec self) !! item with
  | Some resource => Ok resource
  | None =>
      Raise (AttributeError
               ("Resource " +:+ item +:+ " not found. Available resources: "
                +:+ String.concat ", " (__dir__ self)))
  end.

End Methods.
End ESIClient.

Module ESIResourceDecorator.
Section Methods.
Context {CS : Type} `{!Runtime CS}.

(** [getattr(resource, name)] for a [name] that is no attribute of the
    resource object itself: bravado-core's [Resource.__getattr__]. *)
Definition resource_getattr (resource : Resource) (name : string)
  : Result OperationDecl :=
  match res_operations resource !! name with
  | Some op => Ok op
  | None =>
      Raise (AttributeError
               ("Resource '" +:+ res_name resource
                +:+ "' has no operation '" +:+ name +:+ "'"))
  end.

(** Lines 283-287, for the decorator of [resource] in a spec whose HTTP
    client is [client]. *)
Definition __getattr__ (client : ESIRequestsClient CS) (resource : Resource)
    (name : string) : Result (ESICallableOperation CS) :=
  match resource_getattr resource name with
  | Ok op => Ok (ESICallableOperation.__init__ (bind_operation client op))
  | Raise e => Raise e
  end.

End Methods.
End ESIResourceDecorator.

Section Facade.
Context {CS : Type} `{!Runtime CS} `{!Loader CS}.

(** [client.<item>.<name>(_token=token, **op_kwargs)] for names that reach
    the two [__getattr__]: the lookups and the call.  The operation reads
    the HTTP client of its spec when it is called, and that is the object
    the client holds. *)
Definition invoke (self : ESIClient.t CS) (item name : string)
    (_token : option string) (op_kwargs : dict)
  : M (World CS) (RequestResult CS) :=
  match ESIClient.__getattr__ self item with
  | Raise e => raise e
  | Ok resource =>
      match ESIResourceDecorator.__getattr__ (ESIClient.http_client self)
              resource name with
      | Raise e => raise e
      | Ok operation => ESICallableOperation.__call__ operation _token op_kwargs
      end
  end.

End Facade.

(** ** A concrete runtime, cache and operations

    The theorems below hold for every runtime; the definitions of this part
    give one to run the client on: a printer and a string hash standing in
    for Python's, readers for the two texts the client parses, a cache backed
    by a finite map, and servers with a fixed behaviour. *)

Module Fixtures.

Definition quote : string := String (ascii_of_nat 34) EmptyString.

Definition repr_items (l : list string) : string :=
  fold_right (fun x acc => x +:+ ", " +:+ acc) EmptyString l.

Fixpoint repr (v : PyVal) : string :=
  match v with
  | PNone => "None"
  | PBool b => if b then "True" else "False"
  | PInt z => pretty z
  | PFloat s => s
  | PStr s => "'" +:+ s +:+ "'"
  | PList l => "[" +:+ repr_items (map repr l) +:+ "]"
  | PDict d =>
      "{" +:+ repr_items
                (map (fun kv => "'" +:+ fst kv +:+ "': " +:+ repr (snd kv)) d)
          +:+ "}"
  end.

(** A polynomial string hash below 2^61, in place of the keyed SipHash. *)
Fixpoint poly_hash (acc : Z) (s : string) : Z :=
  match s with
  | EmptyString => acc
  | String c s' =>
      poly_hash ((acc * 31 + Z.of_nat (nat_of_ascii c)) mod 2 ^ 61) s'
  end.

(** Split [s] at the first occurrence of the character [c]. *)
Fixpoint split_at (c : ascii) (s : string) : option (string * string) :=
  match s with
  | EmptyString => None
  | String a s' =>
      if Ascii.eqb a c then Some (EmptyString, s')
      else '(l, r) ← split_at c s'; Some (String a l, r)
  end.

Definition strip_prefix (p s : string) : option string :=
  if String.prefix p s
  then Some (String.substring (String.length p)
                              (String.length s - String.length p) s)
  else None.

(** A reader for error bodies: an object with one string member. *)
Definition read_json (s : string) : string + PyVal :=
  let parsed :=
    s1 ← strip_prefix ("{" +:+ quote) s;
    '(key, s2) ← split_at (ascii_of_nat 34) s1;
    s3 ← strip_prefix (": " +:+ quote) s2;
    '(value, s4) ← split_at (ascii_of_nat 34) s3;
    if String.eqb s4 "}" then Some (PDict [(key, PStr value)]) else None in
  match parsed with
  | Some v => inr v
  | None => inl "Expecting value: line 1 column 1 (char 0)"
  end.

Definition month_number (m : string) : option Z :=
  list_find (String.eqb m)
    ["Jan"; "Feb"; "Mar"; "Apr"; "May"; "Jun";
     "Jul"; "Aug"; "Sep"; "Oct"; "Nov"; "Dec"]
  ≫= fun p => Some (Z.of_nat (fst p) + 1).

(** A reader for dates of the form [Sat, 31 Oct 2026 11:05:00 GMT]; the last
    three fields are the constants CPython's [parsedate] fills in. *)
Definition read_date (s : string) : option struct_time :=
  '(_, s1) ← split_at " "%char s;
  '(d, s2) ← split_at " "%char s1;
  '(m, s3) ← split_at " "%char s2;
  '(y, s4) ← split_at " "%char s3;
  '(hh, s5) ← split_at ":"%char s4;
  '(mm, s6) ← split_at ":"%char s5;
  '(ss, _) ← split_at " "%char s6;
  d ← int_of_str d; m ← month_number m; y ← int_of_str y;
  hh ← int_of_str hh; mm ← int_of_str mm; ss ← int_of_str ss;
  Some {| tm_year := y; tm_mon := m; tm_mday := d;
          tm_hour := hh; tm_min := mm; tm_sec := ss;
          tm_wday := 0; tm_yday := 1; tm_isdst := -1 |}.

(** The state of a cache that keeps every entry in a finite map. *)
Definition store : Type := gmap Z (PyVal * Z * datetime_t).

Definition dict_cache : CacheObject store :=
  {| cache_get := Callable (fun (s : store) k => fst <$> s !! k);
     cache_set := Callable (fun (s : store) k v e => <[k := (v, e)]> s);
     cache_contains :=
       Callable (fun (s : store) k =>
                   match s !! k with Some _ => true | None => false end) |}.

(** An object with [get] and [__contains__] and no [set]. *)
Definition read_only_cache : CacheObject store :=
  {| cache_get := cache_get dict_cache;
     cache_set := Missing;
     cache_contains := cache_contains dict_cache |}.

(** The request parameters of a call with the keyword arguments [kwargs]. *)
Definition params_of (kwargs : dict) : RequestParams :=
  {| rp_method := "GET";
     rp_url := "https://esi.evetech.net/latest/";
     rp_params := kwargs;
     rp_headers := [] |}.

Definition build_request (op : Operation store) (kwargs : dict)
  : Result RequestParams :=
  Ok (params_of kwargs).

#[local] Instance runtime (srv : nat -> Sent.t -> Response.t) : Runtime store :=
  {| py_repr := repr;
     hash_str := poly_hash 0;
     json_loads := read_json;
     parsedate_str := read_date;
     http_error_str := fun r => pretty (Response.status_code r);
     default_headers :=
       ci_of_list [("User-Agent", "python-requests/2.31.0");
                   ("Accept-Encoding", "gzip, deflate");
                   ("Accept", "*/*"); ("Connection", "keep-alive")];
     construct_request := build_request;
     server := srv |}.

(** bravado's [construct_request] as far as it checks the names of the
    keyword arguments: one that the operation does not declare is refused
    with a [SwaggerMappingError]. *)
Definition checked_request (op : Operation store) (kwargs : dict)
  : Result RequestParams :=
  match List.find (fun kv => match op_params op !! fst kv with
                             | Some _ => false
                             | None => true
                             end) kwargs with
  | Some kv =>
      Raise (SwaggerMappingError
               ("operation does not have parameter " +:+ fst kv))
  | None => Ok (params_of kwargs)
  end.

(** The runtime that checks the arguments of a call. *)
Definition checking_runtime (srv : nat -> Sent.t -> Response.t)
  : Runtime store :=
  {| py_repr := repr;
     hash_str := poly_hash 0;
     json_loads := read_json;
     parsedate_str := read_date;
     http_error_str := fun r => pretty (Response.status_code r);
     default_headers := @default_headers _ (runtime srv);
     construct_request := checked_request;
     server := srv |}.

Definition client (c : option (CacheObject store)) : ESIRequestsClient store :=
  {| user_agent := "esy-test"; client_cache := c |}.

(** A paginated operation that requires the [evesso] token. *)
Definition get_orders (c : option (CacheObject store)) : Operation store :=
  {| security_specs := [{["evesso" := ["esi-markets.structure_markets.v1"]]}];
     op_params := {["page" := PInt 1]};
     http_client := client c |}.

(** An operation without paging and without security requirements. *)
Definition get_status (c : option (CacheObject store)) : Operation store :=
  {| security_specs := []; op_params := ∅; http_client := client c |}.

Definition world0 : World store := {| net_log := []; cache_store := ∅ |}.

(** The payload of page [k] (counted from zero) of a listing. *)
Definition page_payload (k : nat) : PyVal := PList [PInt (Z.of_nat k)].

(** A server that answers every call with status 200, the headers [h] and
    the payload of the page. *)
Definition serve (h : list (string * string)) (k : nat) (sent : Sent.t)
  : Response.t :=
  {| Response.status_code := 200; Response.headers := ci_of_list h;
     Response.text := "[]"; Response.swagger_result := page_payload k |}.

(** A server that answers every call with the status and the body given. *)
Definition refuse (code : Z) (body : string) (k : nat) (sent : Sent.t)
  : Response.t :=
  {| Response.status_code := code; Response.headers := ∅;
     Response.text := body; Response.swagger_result := PNone |}.

(** The parameters bravado builds for a call without arguments. *)
Definition request_params : RequestParams := params_of [].

(** The generator [ESIRequestsClient.request] builds for the operation [op]
    called with [request_params] and the token [token]. *)
Definition generator (srv : nat -> Sent.t -> Response.t)
    (op : Operation store) (token : option string) : ESIPageGenerator store :=
  {| requests_future :=
       {| RequestsFuture.session_headers :=
            @ESIRequestsClient.session _ (runtime srv) (http_client op) token;
          RequestsFuture.request :=
            ESIRequestsClient.authenticated_request request_params |};
     operation := Some op;
     page := 1; num_pages := 1; stop := false;
     cache := client_cache (http_client op) |}.

(** The body of a 404 as ESI sends it: an object whose [error] member is
    [X not found]. *)
Definition not_found_body : string :=
  "{" +:+ quote +:+ "error" +:+ quote +:+ ": "
  +:+ quote +:+ "X not found" +:+ quote +:+ "}".

(** The headers of a successful answer: three pages, and an expiry. *)
Definition three_pages : list (string * string) := [("X-Pages", "3")].

Definition three_pages_expiring : list (string * string) :=
  [("X-Pages", "3"); ("Expires", "Sat, 31 Oct 2026 11:05:00 GMT")].

(** The body of a 404 that is an object without an [error] member. *)
Definition detail_body : string :=
  "{" +:+ quote +:+ "detail" +:+ quote +:+ ": "
  +:+ quote +:+ "gone" +:+ quote +:+ "}".

(** The resource [Market] of a spec, with the listing of orders. *)
Definition market : Resource :=
  {| res_name := "Market";
     res_operations :=
       {["get_orders" :=
           {| decl_security_specs :=
                [{["evesso" := ["esi-markets.structure_markets.v1"]]}];
              decl_params := {["page" := PInt 1]} |}]} |}.

(** A loader whose download is answered with [resp] and whose spec has the
    one resource [market]. *)
Definition loader (resp : Download) : Loader store :=
  {| requests_get := fun _ _ => inr resp;
     elapsed := fun _ => "0:00:00.250000";
     from_dict := fun _ _ _ _ => Ok {["Market" := market]} |}.

End Fixtures.

(** ** Vocabulary of the statements *)

(** The [page] parameter a call went out with. *)
Definition sent_page (sent : Sent.t) : PyVal :=
  dict_get (Request.params (Sent.request sent)) "page" PNone.

Section Vocabulary.
Context {CS : Type} `{!Runtime CS}.
Import ESIPageGenerator.

(** The server answers every call with a 2xx status and an [X-Pages] header
    that reads [n]. *)
Definition answers_pages (n : Z) : Prop :=
  forall k sent,
    200 <= Response.status_code (server k sent) < 300 /\
    int_of_str (default "1" (ci_get (Response.headers (server k sent)) "x-pages"))
    = Some n.

(** The call the next advance of the generator sends. *)
Definition call_of (s : state CS) : Sent.t :=
  prepare (requests_future
             (fst (set_request_param "page" (PInt (page (fst s))) s))).

(** The payloads the server answers [calls] with, the first of them being
    call number [base]. *)
Definition payloads (base : nat) (calls : list Sent.t) : list PyVal :=
  imap (fun i sent => Response.swagger_result (server (base + i) sent)) calls.

(** The state one advance leaves when the call succeeds and reports [n]
    pages. *)
Definition after_next (n : Z) (s : state CS) : state CS :=
  let s1 := set_request_param "page" (PInt (page (fst s))) s in
  let s2 := log_call (prepare (requests_future (fst s1))) s1 in
  let s3 := set_page (page (fst s) + 1) (set_num_pages n s2) in
  if page (fst s) + 1 >? n then set_stop true s3 else s3.



(** The [page] parameter of the request the generator holds. *)
Definition page_param (g : ESIPageGenerator CS) : PyVal :=
  dict_get (Request.params (RequestsFuture.request (requests_future g)))
           "page" PNone.

(** The state after [k] advances of the generator. *)
Fixpoint advance (k : nat) (s : state CS) : state CS :=
  match k with
  | O => s
  | S k' => snd (__next__ (advance k' s))
  end.

(** [result] has to ask the server: the generator has no cache, or its
    cache does not hold the key of the request. *)
Definition misses_cache (s : state CS) : Prop :=
  match cache (fst s) with
  | None => True
  | Some c =>
      exists f, cache_contains c = Callable f /\
                f (cache_store (snd s)) (_get_cache_key (fst s)) = false
  end.

(** The response to the call [result] sends from the state [s]. *)
Definition response_of (s : state CS) : Response.t :=
  server (length (net_log (snd s))) (prepare (requests_future (fst s))).

(** [result] finds the key of the request in the cache. *)
Definition hits_cache (s : state CS) : Prop :=
  exists c f,
    cache (fst s) = Some c /\ cache_contains c = Callable f /\
    f (cache_store (snd s)) (_get_cache_key (fst s)) = true.



(** Every method of the generator leaves the headers of its future alone and
    adds to the log nothing but calls prepared from that future. *)
Definition sends_only (h : gmap string string) (s s' : state CS) : Prop :=
  prepare_headers (requests_future (fst s')) = h /\
  exists calls,
    net_log (snd s') = net_log (snd s) ++ calls /\
    Forall (fun c => Sent.headers c = h) calls.

(** The exceptions [result] can raise: bravado's HTTP errors and the
    built-in errors of reading the headers and of using the cache. *)
Definition raised_by_result (e : exn) : Prop :=
  match e with
  | HTTPBadRequest _ | HTTPForbidden _ | HTTPNotFound _
  | HTTPInternalServerError _ | HTTPError _
  | ValueError _ | TypeError _ | AttributeError _ => True
  | _ => False
  end.

(** A computation is framed by [P] when it sends only calls prepared from
    the future of the generator it runs on and raises only exceptions in
    [P]. *)
Definition framed (P : exn -> Prop) {A} (m : M (state CS) A) : Prop :=
  forall s,
    sends_only (prepare_headers (requests_future (fst s))) s (snd (m s)) /\
    forall e, fst (m s) = Raise e -> P e.

(** What a fetch can do to the world: nothing; or one call, the prepared
    request of the generator, with the cache as it was; or that call and one
    write of the cache, after a 2xx answer, of the answer's payload and page
    count under the key of the request. *)
Definition fetch_effect (s : state CS) (r : Result PyVal) (s' : state CS)
  : Prop :=
  let sent := prepare (requests_future (fst s)) in
  (net_log (snd s') = net_log (snd s) /\
   cache_store (snd s') = cache_store (snd s)) \/
  (net_log (snd s') = net_log (snd s) ++ [sent] /\
   (cache_store (snd s') = cache_store (snd s) \/
    exists c fset e,
      cache (fst s) = Some c /\ cache_set c = Callable fset /\
      200 <= Response.status_code (response_of s) < 300 /\
      r = Ok (Response.swagger_result (response_of s)) /\
      cache_store (snd s')
      = fset (cache_store (snd s)) (_get_cache_key (fst s))
             (Response.swagger_result (response_of s), num_pages (fst s')) e)).

(** Two generators that differ at most in the page count. *)
Definition same_but_num_pages (g g' : ESIPageGenerator CS) : Prop :=
  requests_future g' = requests_future g /\ operation g' = operation g /\
  page g' = page g /\ stop g' = stop g /\ cache g' = cache g.

(** The request of [g'] is the request of [g] up to the [page] parameter, and
    the generators agree on their session, operation and cache. *)
Definition same_request_but_page (g g' : ESIPageGenerator CS) : Prop :=
  let r := RequestsFuture.request (requests_future g) in
  let r' := RequestsFuture.request (requests_future g') in
  RequestsFuture.session_headers (requests_future g')
  = RequestsFuture.session_headers (requests_future g) /\
  Request.url r' = Request.url r /\ Request.auth r' = Request.auth r /\
  Request.headers r' = Request.headers r /\
  Request.method r' = Request.method r /\
  operation g' = operation g /\ cache g' = cache g /\
  (Request.params r' = Request.params r \/
   exists p, Request.params r' = dict_set (Request.params r) "page" (PInt p)).

End Vocabulary.

Ltac unfold_monad :=
  unfold mbind, M_bind, mret, M_ret, gets, modify, raise, try_except in *.

(** Case analysis on the innermost scrutinee of the goal. *)
Ltac destruct_innermost :=
  match goal with
  | |- context [match ?x with _ => _ end] =>
      lazymatch x with
      | context [match _ with _ => _ end] => fail
      | _ => destruct x eqn:?
      end
  end.

(** * Theorems *)

Lemma dict_get_set (d : dict) (k : string) (v dflt : PyVal) :
  dict_get (dict_set d k v) k dflt = v.
Proof.
  induction d as [|[k' v'] d IH]; cbn.
  - by rewrite String.eqb_refl.
  - destruct (String.eqb k' k) eqn:E; cbn.
    + by rewrite String.eqb_refl.
    + by rewrite E.
Qed.

Section Pagination.
Context {CS : Type} `{!Runtime CS}.
Import ESIPageGenerator.

(** Without a cache [result] is one call: the payload and the page count of
    a 2xx answer, the [ValueError] of an [X-Pages] that is no integer, or the
    HTTP error of the status. *)
Lemma result_no_cache (s : state CS) :
  cache (fst s) = None ->
  result s =
    let sent := prepare (requests_future (fst s)) in
    let response := server (length (net_log (snd s))) sent in
    let s' := log_call sent s in
    let pages := default "1" (ci_get (Response.headers response) "x-pages") in
    if (200 <=? Response.status_code response)
       && (Response.status_code response <? 300)
    then
      match int_of_str pages with
      | Some n => (Ok (Response.swagger_result response), set_num_pages n s')
      | None =>
          (Raise (ValueError (int_error pages)), s')
      end
    else (Raise (make_http_exception response), s').
Proof.
  intros Hc. unfold result, _send, x_pages, py_int. unfold_monad. cbn.
  rewrite Hc. cbn.
  destruct (_ && _); cbn; [|reflexivity].
  destruct (int_of_str _); reflexivity.
Qed.

(** [__next__] as a function of what [result] does. *)
Lemma next_eq (s : state CS) :
  __next__ s =
    if stop (fst s) then (Raise StopIteration, s)
    else
      match result (set_request_param "page" (PInt (page (fst s))) s) with
      | (Ok v, s') =>
          (Ok v,
           let s2 := set_page (page (fst s') + 1) s' in
           if page (fst s2) >? num_pages (fst s2) then set_stop true s2 else s2)
      | (Raise e, s') => (Raise e, s')
      end.
Proof.
  unfold __next__. unfold_monad. cbv beta iota.
  destruct (stop (fst s)); [reflexivity|].
  destruct (result _) as [[v|e] s']; [|reflexivity].
  cbv beta iota.
  destruct (page (fst (set_page _ _)) >? _); reflexivity.
Qed.

Lemma next_stopped (s : state CS) :
  stop (fst s) = true -> __next__ s = (Raise StopIteration, s).
Proof. intros H. by rewrite next_eq, H. Qed.

Lemma next_live (n : Z) (s : state CS) :
  answers_pages n -> stop (fst s) = false -> cache (fst s) = None ->
  __next__ s =
    (Ok (Response.swagger_result
           (server (length (net_log (snd s))) (call_of s))),
     after_next n s).
Proof.
  intros Hsrv Hstop Hc. rewrite next_eq, Hstop.
  rewrite result_no_cache by done.
  cbv zeta.
  destruct (Hsrv (length (net_log (snd (set_request_param "page"
                                          (PInt (page (fst s))) s))))
                 (call_of s)) as [[Hlo Hhi] Hint].
  unfold call_of in *.
  rewrite (proj2 (Z.leb_le _ _) Hlo), (proj2 (Z.ltb_lt _ _) Hhi), Hint.
  destruct s as [g w]. reflexivity.
Qed.

Lemma sent_page_call_of (s : state CS) :
  sent_page (call_of s) = PInt (page (fst s)).
Proof.
  destruct s as [g w]. unfold sent_page, call_of. cbn. apply dict_get_set.
Qed.

Lemma after_next_spec (n : Z) (s : state CS) :
  stop (fst s) = false ->
  let s' := after_next n s in
  page (fst s') = page (fst s) + 1 /\
  num_pages (fst s') = n /\
  stop (fst s') = (page (fst s) + 1 >? n) /\
  cache (fst s') = cache (fst s) /\
  net_log (snd s') = net_log (snd s) ++ [call_of s] /\
  cache_store (snd s') = cache_store (snd s).
Proof.
  intros Hstop. destruct s as [g w]. unfold after_next. cbn in *.
  destruct (page g + 1 >? n); cbn; rewrite ?Hstop; done.
Qed.

(** The loop: with [m] pages left after the current one, the iteration makes
    [m + 1] calls, for the pages from the current one on, and stops. *)
Lemma iterate_live (n : Z) (Hsrv : answers_pages n) (m : nat) :
  forall (s : state CS) (fuel : nat),
    stop (fst s) = false -> cache (fst s) = None ->
    page (fst s) + Z.of_nat m = n -> (S m < fuel)%nat ->
    exists vs s' calls,
      iterate fuel s = Some (Ok vs, s') /\
      length calls = S m /\
      vs = payloads (length (net_log (snd s))) calls /\
      net_log (snd s') = net_log (snd s) ++ calls /\
      map sent_page calls = PInt <$> seqZ (page (fst s)) (Z.of_nat (S m)) /\
      num_pages (fst s') = n /\
      page (fst s') = n + 1 /\
      stop (fst s') = true.
Proof.
  induction m as [|m IH]; intros s fuel Hstop Hc Hpage Hfuel.
  - destruct fuel as [|[|fuel]]; [lia|lia|].
    destruct (after_next_spec n s Hstop) as (Hp & Hn & Hs & Hc' & Hlog & _).
    assert (Hs' : stop (fst (after_next n s)) = true).
    { rewrite Hs, Z.gtb_ltb. apply Z.ltb_lt. lia. }
    exists [Response.swagger_result
              (server (length (net_log (snd s))) (call_of s))],
      (after_next n s), [call_of s].
    split.
    { cbn [iterate]. rewrite (next_live n s) by done.
      rewrite next_stopped by done. reflexivity. }
    repeat split; try done.
    + unfold payloads. cbn. by rewrite Nat.add_0_r.
    + cbn [map]. by rewrite sent_page_call_of.
    + lia.
  - destruct fuel as [|fuel]; [lia|].
    destruct (after_next_spec n s Hstop) as (Hp & Hn & Hs & Hc' & Hlog & _).
    assert (Hs' : stop (fst (after_next n s)) = false).
    { rewrite Hs, Z.gtb_ltb. apply Z.ltb_ge. lia. }
    destruct (IH (after_next n s) fuel)
      as (vs & s' & calls & Hit & Hlen & Hvs & Hl & Hpg & Hnp & Hlast & Hst);
      [done|congruence|lia|lia|].
    exists (Response.swagger_result
              (server (length (net_log (snd s))) (call_of s)) :: vs),
      s', (call_of s :: calls).
    split.
    { cbn [iterate]. rewrite (next_live n s) by done. by rewrite Hit. }
    repeat split; try done.
    + cbn. by rewrite Hlen.
    + unfold payloads. rewrite imap_cons. f_equal.
      * by rewrite Nat.add_0_r.
      * rewrite Hvs. unfold payloads. rewrite Hlog, length_app. cbn.
        apply imap_ext. intros i x _. cbn. do 2 f_equal. lia.
    + rewrite Hl, Hlog. by rewrite <- app_assoc.
    + rewrite Nat2Z.inj_succ, seqZ_cons by lia. cbn [map fmap list_fmap].
      rewrite sent_page_call_of. f_equal. rewrite Hpg, Hp.
      do 2 f_equal. lia.
Qed.

(** X6.  On the wire: a paginated operation called through a client without
    a cache, whose server answers every call with success and [n >= 1]
    pages.  Iterating the generator makes exactly [n] calls, which carry
    [page] = 1, 2, ..., [n] in this order; the results are the payloads of
    these calls; the generator ends with [num_pages = n] and
    [page = n + 1], and the next advance raises [StopIteration]. *)
Theorem uncached_iteration_calls_each_page_once
    (self : ESIRequestsClient CS) (request_params : RequestParams)
    (op : Operation CS) (token : option string) (w : World CS) (n : Z) :
  ESIRequestsClient.has_page op = true ->
  client_cache self = None ->
  1 <= n ->
  answers_pages n ->
  exists g,
    ESIRequestsClient.request self request_params (Some op) token w
    = (Ok (Generator g), w) /\
    page g = 1 /\
    forall fuel, (Z.to_nat n < fuel)%nat ->
      exists vs s' calls,
        iterate fuel (g, w) = Some (Ok vs, s') /\
        length vs = Z.to_nat n /\
        vs = payloads (length (net_log w)) calls /\
        net_log (snd s') = net_log w ++ calls /\
        map sent_page calls = PInt <$> seqZ 1 n /\
        num_pages (fst s') = n /\
        page (fst s') = n + 1 /\
        __next__ s' = (Raise StopIteration, s').
Proof.
  intros Hpage Hcache Hn Hsrv.
  unfold ESIRequestsClient.request. rewrite Hpage, Hcache. cbn.
  eexists. split; [reflexivity|]. split; [reflexivity|].
  intros fuel Hfuel.
  match goal with
  | |- context [iterate fuel ?s] =>
      destruct (iterate_live n Hsrv (Z.to_nat (n - 1)) s fuel)
        as (vs & s' & calls & Hit & Hlen & Hvs & Hl & Hpg & Hnp & Hlast & Hst);
        [reflexivity|reflexivity|cbn; lia|lia|]
  end.
  exists vs, s', calls. cbn in Hpg, Hl, Hvs.
  replace (Z.of_nat (S (Z.to_nat (n - 1)))) with n in Hpg by lia.
  repeat split; try done.
  - rewrite Hvs. unfold payloads. rewrite length_imap. lia.
  - by apply next_stopped.
Qed.

(** X1.  The loop tests the page count after the fetch: when every call
    succeeds and reports a page count [n <= 0], the iteration still makes
    one call, for page 1, yields the payload of the answer to that call and
    nothing else, and stops. *)
Theorem non_positive_page_count_yields_one_result
    (self : ESIRequestsClient CS) (request_params : RequestParams)
    (op : Operation CS) (token : option string) (w : World CS) (n : Z) :
  ESIRequestsClient.has_page op = true ->
  client_cache self = None ->
  n <= 0 ->
  answers_pages n ->
  exists g,
    ESIRequestsClient.request self request_params (Some op) token w
    = (Ok (Generator g), w) /\
    forall fuel, (1 < fuel)%nat ->
      exists s',
        iterate fuel (g, w)
        = Some (Ok [Response.swagger_result
                      (server (length (net_log w)) (call_of (g, w)))], s') /\
        net_log (snd s') = net_log w ++ [call_of (g, w)] /\
        sent_page (call_of (g, w)) = PInt 1 /\
        num_pages (fst s') = n /\
        __next__ s' = (Raise StopIteration, s').
Proof.
  intros Hpage Hcache Hn Hsrv.
  unfold ESIRequestsClient.request. rewrite Hpage, Hcache. cbn.
  eexists. split; [reflexivity|].
  intros [|[|fuel]] Hfuel; [lia|lia|].
  match goal with
  | |- context [iterate _ ?s] =>
      destruct (after_next_spec n s eq_refl) as (Hp & Hnp & Hs & _ & Hlog & _);
      assert (Hstop : stop (fst (after_next n s)) = true)
        by (rewrite Hs, Z.gtb_ltb; apply Z.ltb_lt; cbn; lia);
      exists (after_next n s);
      cbn [iterate]; rewrite (next_live n s) by done
  end.
  rewrite next_stopped by done.
  repeat split; try done. apply dict_get_set.
Qed.

End Pagination.

(** A listing of three pages, no cache: the generator of [Fixtures.get_orders]
    makes three calls and stops. *)
Lemma uncached_iteration_three_pages :
  let H := Fixtures.runtime (Fixtures.serve [("X-Pages", "3")]) in
  ESIRequestsClient.has_page (Fixtures.get_orders None) = true /\
  answers_pages 3 /\
  exists g,
    ESIRequestsClient.request (Fixtures.client None) Fixtures.request_params
      (Some (Fixtures.get_orders None)) (Some "token") Fixtures.world0
    = (Ok (Generator g), Fixtures.world0) /\
    page g = 1 /\
    forall fuel, (Z.to_nat 3 < fuel)%nat ->
      exists vs s' calls,
        ESIPageGenerator.iterate fuel (g, Fixtures.world0)
        = Some (Ok vs, s') /\
        length vs = Z.to_nat 3 /\
        vs = payloads (length (net_log Fixtures.world0)) calls /\
        net_log (snd s') = net_log Fixtures.world0 ++ calls /\
        map sent_page calls = PInt <$> seqZ 1 3 /\
        num_pages (fst s') = 3 /\
        page (fst s') = 3 + 1 /\
        ESIPageGenerator.__next__ s' = (Raise StopIteration, s').
Proof.
  intros H.
  assert (Hsrv : answers_pages 3).
  { intros k sent. split; [cbn; lia | reflexivity]. }
  split; [reflexivity|]. split; [exact Hsrv|].
  apply (uncached_iteration_calls_each_page_once (Fixtures.client None));
    [reflexivity | reflexivity | lia | exact Hsrv].
Defined.

(** A listing whose server reports zero pages: one call all the same. *)
Lemma zero_pages_one_call :
  let H := Fixtures.runtime (Fixtures.serve [("X-Pages", "0")]) in
  answers_pages 0 /\
  exists g,
    ESIRequestsClient.request (Fixtures.client None) Fixtures.request_params
      (Some (Fixtures.get_orders None)) (Some "token") Fixtures.world0
    = (Ok (Generator g), Fixtures.world0) /\
    forall fuel, (1 < fuel)%nat ->
      exists s',
        ESIPageGenerator.iterate fuel (g, Fixtures.world0)
        = Some (Ok [Response.swagger_result
                      (server (length (net_log Fixtures.world0))
                              (call_of (g, Fixtures.world0)))], s') /\
        net_log (snd s')
        = net_log Fixtures.world0 ++ [call_of (g, Fixtures.world0)] /\
        sent_page (call_of (g, Fixtures.world0)) = PInt 1 /\
        num_pages (fst s') = 0 /\
        ESIPageGenerator.__next__ s' = (Raise StopIteration, s').
Proof.
  intros H.
  assert (Hsrv : answers_pages 0).
  { intros k sent. split; [cbn; lia | reflexivity]. }
  split; [exact Hsrv|].
  apply (non_positive_page_count_yields_one_result (Fixtures.client None));
    [reflexivity | reflexivity | lia | exact Hsrv].
Defined.

Section Authorization.
Context {CS : Type} `{!Runtime CS}.

(** An operation one of whose security requirements names [evesso] is
    marked as requiring authorization. *)
Lemma evesso_requires_authorization (op : Operation CS) :
  (exists spec, In spec (security_specs op) /\ is_Some (spec !! "evesso")) ->
  require_authorization (ESICallableOperation.__init__ op) = true.
Proof.
  intros (spec & Hin & [scopes Hs]). cbn.
  apply existsb_exists. exists spec. split; [done|].
  unfold ESICallableOperation.has_evesso. by rewrite Hs.
Qed.

(** C2, as the code has it.  An operation whose security requirements name
    the [evesso] token, called without a token: bravado builds the request
    parameters first.  If it accepts the arguments the call raises
    [ESIAuthorizationError]; if it refuses them the call raises bravado's
    exception instead.  Either way the world is the one the call started
    in: nothing has reached the network (and the cache is untouched). *)
Theorem missing_token_raises_before_network
    (op : Operation CS) (op_kwargs : dict) (w : World CS) :
  (exists spec, In spec (security_specs op) /\ is_Some (spec !! "evesso")) ->
  ESICallableOperation.__call__ (ESICallableOperation.__init__ op)
    None op_kwargs w
  = (match construct_request op op_kwargs with
     | Ok _ =>
         Raise (ESIAuthorizationError
                  (PStr "Missing required authorization token"))
     | Raise e => Raise e
     end, w).
Proof.
  intros Hsec. unfold ESICallableOperation.__call__.
  rewrite (evesso_requires_authorization op Hsec).
  cbn [co_operation ESICallableOperation.__init__].
  by destruct (construct_request op op_kwargs).
Qed.

(** X5.  Whatever bravado makes of the arguments, a call without the
    required token ends in an exception and leaves the world as it was: the
    authorization check comes before anything is sent. *)
Theorem missing_token_never_reaches_network
    (op : Operation CS) (op_kwargs : dict) (w : World CS) :
  (exists spec, In spec (security_specs op) /\ is_Some (spec !! "evesso")) ->
  exists e,
    ESICallableOperation.__call__ (ESICallableOperation.__init__ op)
      None op_kwargs w
    = (Raise e, w).
Proof.
  intros Hsec. unfold ESICallableOperation.__call__.
  rewrite (evesso_requires_authorization op Hsec).
  cbn [co_operation ESICallableOperation.__init__].
  destruct (construct_request op op_kwargs) as [rp|e]; by eexists.
Qed.

(** C10.  A cache object one of whose [get], [set] and [__contains__] is
    missing or not callable makes the construction of the page generator
    fail with [AssertionError], and so every request of a client configured
    with it, paginated or not, fails with [AssertionError] in the world it
    started in: nothing has reached the network. *)
Theorem unusable_cache_fails_before_network
    (c : CacheObject CS) (self : ESIRequestsClient CS) :
  callable (cache_get c) && callable (cache_set c)
  && callable (cache_contains c) = false ->
  client_cache self = Some c ->
  (forall requests_future operation,
     ESIPageGenerator.__init__ requests_future operation (Some c)
     = Raise AssertionError) /\
  (forall request_params operation authorization_token w,
     ESIRequestsClient.request self request_params operation
       authorization_token w
     = (Raise AssertionError, w)).
Proof.
  intros Hbad Hself.
  assert (Hinit : forall requests_future operation,
             ESIPageGenerator.__init__ requests_future operation (Some c)
             = Raise AssertionError).
  { intros rf op. unfold ESIPageGenerator.__init__.
    destruct (callable (cache_get c)); [|reflexivity].
    destruct (callable (cache_set c)); [|reflexivity].
    destruct (callable (cache_contains c)); [discriminate|reflexivity]. }
  split; [exact Hinit|].
  intros rp op token w. unfold ESIRequestsClient.request.
  rewrite Hself, Hinit. by destruct (match op with Some _ => _ | None => _ end).
Qed.

End Authorization.

(** [Fixtures.get_orders] requires the token; called without one, on
    arguments bravado accepts, it raises the authorization error and the log
    of calls stays empty. *)
Lemma missing_token_on_orders :
  let H := Fixtures.runtime (Fixtures.serve [("X-Pages", "3")]) in
  (exists spec, In spec (security_specs (Fixtures.get_orders None))
                /\ is_Some (spec !! "evesso")) /\
  ESICallableOperation.__call__
    (ESICallableOperation.__init__ (Fixtures.get_orders None)) None [] Fixtures.world0
  = (Raise (ESIAuthorizationError (PStr "Missing required authorization token")),
     Fixtures.world0).
Proof.
  intros H.
  assert (Hsec : exists spec, In spec (security_specs (Fixtures.get_orders None))
                              /\ is_Some (spec !! "evesso")).
  { eexists. split; [left; reflexivity|]. by eexists. }
  split; [exact Hsec|].
  exact (missing_token_raises_before_network (Fixtures.get_orders None) []
           Fixtures.world0 Hsec).
Defined.

(** C2 as the spec words it fails on a call whose arguments bravado
    refuses: [Fixtures.get_orders], which requires the token, called without
    one and with an argument it does not declare, raises
    [SwaggerMappingError], not the authorization error. *)
Lemma missing_token_with_refused_argument :
  let H := Fixtures.checking_runtime (Fixtures.serve [("X-Pages", "3")]) in
  let outcome :=
    ESICallableOperation.__call__
      (ESICallableOperation.__init__ (Fixtures.get_orders None)) None
      [("bogus", PInt 1)] Fixtures.world0 in
  require_authorization
    (ESICallableOperation.__init__ (Fixtures.get_orders None)) = true /\
  outcome
  = (Raise (SwaggerMappingError "operation does not have parameter bogus"),
     Fixtures.world0) /\
  fst outcome
  <> Raise (ESIAuthorizationError
              (PStr "Missing required authorization token")).
Proof.
  intros H outcome. split; [reflexivity|]. split; [reflexivity|discriminate].
Qed.

(** The same call, whatever its keyword arguments. *)
Lemma missing_token_on_orders_any_arguments :
  let H := Fixtures.runtime (Fixtures.serve Fixtures.three_pages) in
  exists e,
    ESICallableOperation.__call__
      (ESICallableOperation.__init__ (Fixtures.get_orders None)) None
      [("order_type", PStr "all")] Fixtures.world0
    = (Raise e, Fixtures.world0).
Proof.
  intros H.
  apply (missing_token_never_reaches_network (Fixtures.get_orders None)).
  eexists. split; [left; reflexivity|]. by eexists.
Defined.

(** A client configured with [Fixtures.read_only_cache], which has no [set]:
    the request fails with [AssertionError] and the log of calls stays
    empty. *)
Lemma read_only_cache_fails :
  let H := Fixtures.runtime (Fixtures.serve [("X-Pages", "3")]) in
  let c := Fixtures.read_only_cache in
  callable (cache_get c) && callable (cache_set c)
  && callable (cache_contains c) = false /\
  (forall requests_future operation,
     ESIPageGenerator.__init__ requests_future operation (Some c)
     = Raise AssertionError) /\
  (forall request_params operation authorization_token w,
     ESIRequestsClient.request (Fixtures.client (Some c)) request_params
       operation authorization_token w
     = (Raise AssertionError, w)).
Proof.
  intros H c. split; [reflexivity|].
  exact (unusable_cache_fails_before_network c (Fixtures.client (Some c))
           eq_refl eq_refl).
Defined.

Section Fetching.
Context {CS : Type} `{!Runtime CS}.
Import ESIPageGenerator.

(** A miss of the cache: the call, the page count, the expiry, the write. *)
Lemma result_miss (s : state CS) (c : CacheObject CS) (f : CS -> Z -> bool) :
  cache (fst s) = Some c ->
  cache_contains c = Callable f ->
  f (cache_store (snd s)) (_get_cache_key (fst s)) = false ->
  result s =
    let response := response_of s in
    let s1 := log_call (prepare (requests_future (fst s))) s in
    let pages := default "1" (ci_get (Response.headers response) "x-pages") in
    if (200 <=? Response.status_code response)
       && (Response.status_code response <? 300)
    then
      match int_of_str pages with
      | Some n =>
          let s2 := set_num_pages n s1 in
          match expires_of (ci_get (Response.headers response) "expires") s2 with
          | (Ok expires, _) =>
              match cache_put c (_get_cache_key (fst s))
                      (Response.swagger_result response, n) expires s2 with
              | (Ok _, s3) => (Ok (Response.swagger_result response), s3)
              | (Raise e, s3) => (Raise e, s3)
              end
          | (Raise e, _) => (Raise e, s2)
          end
      | None =>
          (Raise (ValueError (int_error pages)), s1)
      end
    else (Raise (make_http_exception response), s1).
Proof.
  intros Hc Hf Hmiss. destruct s as [g w]. cbn in *.
  unfold result, cache_has, _send, x_pages, py_int, response_of.
  unfold_monad. cbn. rewrite Hc, Hf. cbn. rewrite Hmiss. cbn.
  destruct (_ && _); cbn; [|reflexivity].
  destruct (int_of_str _); cbn; [|reflexivity].
  unfold expires_of. destruct (parsedate _); cbn; [|reflexivity].
  destruct (datetime _ _ _ _ _ _ _ _); cbn; [|reflexivity].
  unfold cache_put. destruct (cache_set c); reflexivity.
Qed.

(** A hit of the cache: the stored payload and page count, and no call. *)
Lemma result_hit (s : state CS) (c : CacheObject CS)
    (f : CS -> Z -> bool) (g : CS -> Z -> option (PyVal * Z))
    (data : PyVal) (n : Z) :
  cache (fst s) = Some c ->
  cache_contains c = Callable f ->
  cache_get c = Callable g ->
  f (cache_store (snd s)) (_get_cache_key (fst s)) = true ->
  g (cache_store (snd s)) (_get_cache_key (fst s)) = Some (data, n) ->
  result s = (Ok data, set_num_pages n s).
Proof.
  intros Hc Hf Hg Hhit Hget. destruct s as [gen w]. cbn in *.
  unfold result, cache_has, cache_lookup. unfold_monad. cbn.
  rewrite Hc, Hf. cbn. rewrite Hhit, Hg. cbn. by rewrite Hget.
Qed.

(** A call that has to ask the server and gets a status outside 2xx raises
    the HTTP error of the status, with the call on the log and nothing else
    changed. *)
Lemma result_http_error (s : state CS) :
  misses_cache s ->
  ~ (200 <= Response.status_code (response_of s) < 300) ->
  result s = (Raise (make_http_exception (response_of s)),
              log_call (prepare (requests_future (fst s))) s).
Proof.
  intros Hmiss Hstatus.
  assert (Hb : (200 <=? Response.status_code (response_of s))
               && (Response.status_code (response_of s) <? 300) = false).
  { apply andb_false_iff.
    destruct (Z.leb_spec 200 (Response.status_code (response_of s)));
      [right; apply Z.ltb_ge; lia | by left]. }
  unfold misses_cache in Hmiss.
  destruct (cache (fst s)) as [c|] eqn:Hc.
  - destruct Hmiss as (f & Hf & Hfalse).
    rewrite (result_miss s c f) by done. cbv zeta. by rewrite Hb.
  - rewrite result_no_cache by done. cbv zeta.
    fold (response_of s). by rewrite Hb.
Qed.

End Fetching.

Section ErrorMapping.
Context {CS : Type} `{!Runtime CS}.
Import ESIPageGenerator.

(** X3.  [get] on a 403 whose request had to ask the server: the caller gets
    [ESIForbidden] with the fixed message [Access denied], whatever the body
    of the response. *)
Theorem get_forbidden (s : state CS) :
  misses_cache s ->
  Response.status_code (response_of s) = 403 ->
  get s = (Raise (ESIForbidden (PStr "Access denied")),
           log_call (prepare (requests_future (fst s))) s).
Proof.
  intros Hmiss Hstatus. unfold get, try_except.
  rewrite result_http_error by (done || lia).
  unfold make_http_exception. by rewrite Hstatus.
Qed.

(** [__next__] on a 403: bravado's [HTTPForbidden] reaches the caller as it
    is, since [__next__] calls [result] and not [get]. *)
Lemma next_forbidden (s : state CS) :
  let s1 := set_request_param "page" (PInt (page (fst s))) s in
  stop (fst s) = false ->
  misses_cache s1 ->
  Response.status_code (response_of s1) = 403 ->
  __next__ s = (Raise (HTTPForbidden (response_of s1)),
                log_call (prepare (requests_future (fst s1))) s1).
Proof.
  intros s1 Hstop Hmiss Hstatus. rewrite next_eq, Hstop. fold s1.
  rewrite result_http_error by (done || lia).
  unfold make_http_exception. by rewrite Hstatus.
Qed.

(** X7.  [get] on a 404 whose request had to ask the server.  If the body
    parses to a JSON object whose [error] member is the string [msg], the
    caller gets [ESINotFound] with exactly [msg] as its message; if the body
    does not parse, the caller gets [ESINotFound] with the text of the
    decoding exception as its message. *)
Theorem get_not_found_message (s : state CS) :
  misses_cache s ->
  Response.status_code (response_of s) = 404 ->
  let s' := log_call (prepare (requests_future (fst s))) s in
  (forall d msg,
     json_loads (Response.text (response_of s)) = inr (PDict d) ->
     dict_get d "error" (PStr "Not found") = PStr msg ->
     get s = (Raise (ESINotFound (PStr msg)), s') /\
     exn_str (ESINotFound (PStr msg)) = msg) /\
  (forall m,
     json_loads (Response.text (response_of s)) = inl m ->
     get s = (Raise (ESINotFound (PStr m)), s') /\
     exn_str (ESINotFound (PStr m)) = exn_str (JSONDecodeError m)).
Proof.
  intros Hmiss Hstatus s'.
  assert (Hget : get s =
            try_except
              (error_msg ← loads (Response.text (response_of s));
               arg ← py_get error_msg "error" (PStr "Not found");
               raise (ESINotFound arg))
              (fun ex => raise (ESINotFound (PStr (exn_str ex)))) s').
  { unfold get at 1. unfold try_except at 1.
    rewrite result_http_error by (done || lia).
    unfold make_http_exception. by rewrite Hstatus. }
  split.
  - intros d msg Hjson Hmsg. split; [|reflexivity].
    rewrite Hget. unfold loads, py_get. unfold_monad.
    rewrite Hjson. cbn. by rewrite Hmsg.
  - intros m Hjson. split; [|reflexivity].
    rewrite Hget. unfold loads. unfold_monad. by rewrite Hjson.
Qed.

End ErrorMapping.

(** A 403 on the status call. *)
Lemma get_forbidden_on_status :
  let srv := Fixtures.refuse 403 "{}" in
  let H := Fixtures.runtime srv in
  let s := (Fixtures.generator srv (Fixtures.get_status None) None,
            Fixtures.world0) in
  misses_cache s /\
  Response.status_code (response_of s) = 403 /\
  ESIPageGenerator.get s
  = (Raise (ESIForbidden (PStr "Access denied")),
     ESIPageGenerator.log_call (prepare (requests_future (fst s))) s).
Proof.
  intros srv H s.
  assert (Hmiss : misses_cache s) by exact I.
  split; [exact Hmiss|]. split; [reflexivity|].
  exact (get_forbidden s Hmiss eq_refl).
Defined.

(** A 404 with the body [Fixtures.not_found_body] reaches the caller of
    [get] as [ESINotFound] with the message [X not found]. *)
Lemma get_not_found_x :
  let srv := Fixtures.refuse 404 Fixtures.not_found_body in
  let H := Fixtures.runtime srv in
  let s := (Fixtures.generator srv (Fixtures.get_status None) None,
            Fixtures.world0) in
  misses_cache s /\
  Response.status_code (response_of s) = 404 /\
  json_loads (Response.text (response_of s))
  = inr (PDict [("error", PStr "X not found")]) /\
  fst (ESIPageGenerator.get s) = Raise (ESINotFound (PStr "X not found")).
Proof.
  intros srv H s.
  assert (Hmiss : misses_cache s) by exact I.
  assert (Hstatus : Response.status_code (response_of s) = 404) by reflexivity.
  split; [exact Hmiss|]. split; [exact Hstatus|]. split; [reflexivity|].
  destruct (get_not_found_message s Hmiss Hstatus) as [Hparsed _].
  destruct (Hparsed [("error", PStr "X not found")] "X not found"
              eq_refl eq_refl) as [Hget _].
  by rewrite Hget.
Defined.

Section Headers.
Context {CS : Type} `{!Runtime CS}.
Import ESIPageGenerator.

Lemma status_2xx (r : Response.t) :
  200 <= Response.status_code r < 300 ->
  (200 <=? Response.status_code r) && (Response.status_code r <? 300) = true.
Proof.
  intros [Hlo Hhi]. apply andb_true_iff.
  split; [by apply Z.leb_le | by apply Z.ltb_lt].
Qed.

Lemma datetime_fields (y mo d h mi s us : Z) (zone : tzinfo) (e : datetime_t) :
  datetime y mo d h mi s us zone = Some e ->
  e = {| year := y; month := mo; day := d; hour := h; minute := mi;
         second := s; microsecond := us; tz := zone |}.
Proof. unfold datetime. destruct (_ && _); congruence. Qed.

(** C5, as the code has it.  For a successful response that [result] had to
    ask the server for: without an [X-Pages] header the page count becomes
    1; with a header that reads as the integer [n] it becomes [n]; with a
    header that is no integer [result] raises the [ValueError] of [int],
    with the call on the log and the page count as it was.  Nothing defaults
    to 1 in the last case. *)
Theorem x_pages_default_only_when_absent (s : state CS) :
  misses_cache s ->
  200 <= Response.status_code (response_of s) < 300 ->
  let h := ci_get (Response.headers (response_of s)) "x-pages" in
  (h = None -> num_pages (fst (snd (result s))) = 1) /\
  (forall v n, h = Some v -> int_of_str v = Some n ->
     num_pages (fst (snd (result s))) = n) /\
  (forall v, h = Some v -> int_of_str v = None ->
     result s =
       (Raise (ValueError (int_error v)),
        log_call (prepare (requests_future (fst s))) s)).
Proof.
  intros Hmiss Hstatus h.
  assert (Hread : forall v n, default "1" h = v -> int_of_str v = Some n ->
                    num_pages (fst (snd (result s))) = n).
  { intros v n Hv Hint. unfold misses_cache in Hmiss.
    destruct (cache (fst s)) as [c|] eqn:Hc.
    - destruct Hmiss as (f & Hf & Hfalse).
      rewrite (result_miss s c f) by done. cbv zeta.
      rewrite status_2xx by done. fold h. rewrite Hv, Hint.
      destruct (expires_of _ _) as [[e|e] s2]; [|reflexivity].
      unfold cache_put.
      destruct (cache_set c); unfold_monad; reflexivity.
    - rewrite result_no_cache by done. cbv zeta. fold (response_of s).
      rewrite status_2xx by done. fold h. by rewrite Hv, Hint. }
  split; [|split].
  - intros Hh. apply (Hread "1"); [by rewrite Hh | reflexivity].
  - intros v n Hh Hint. apply (Hread v); [by rewrite Hh | done].
  - intros v Hh Hint. unfold misses_cache in Hmiss.
    destruct (cache (fst s)) as [c|] eqn:Hc.
    + destruct Hmiss as (f & Hf & Hfalse).
      rewrite (result_miss s c f) by done. cbv zeta.
      rewrite status_2xx by done. fold h. rewrite Hh.
      change (default "1" (Some v)) with v.
      by rewrite Hint.
    + rewrite result_no_cache by done. cbv zeta. fold (response_of s).
      rewrite status_2xx by done. fold h. rewrite Hh.
      change (default "1" (Some v)) with v.
      by rewrite Hint.
Qed.

(** A miss of the cache on a successful response, up to the expiry: the
    call is on the log and the page count is set. *)
Lemma result_miss_expiry
    (s : state CS) (c : CacheObject CS) (fcontains : CS -> Z -> bool) (n : Z) :
  cache (fst s) = Some c ->
  cache_contains c = Callable fcontains ->
  fcontains (cache_store (snd s)) (_get_cache_key (fst s)) = false ->
  200 <= Response.status_code (response_of s) < 300 ->
  int_of_str (default "1" (ci_get (Response.headers (response_of s)) "x-pages"))
  = Some n ->
  let s1 := set_num_pages n (log_call (prepare (requests_future (fst s))) s) in
  result s =
    match expires_of (ci_get (Response.headers (response_of s)) "expires") s1 with
    | (Ok expires, _) =>
        match cache_put c (_get_cache_key (fst s))
                (Response.swagger_result (response_of s), n) expires s1 with
        | (Ok _, s3) => (Ok (Response.swagger_result (response_of s)), s3)
        | (Raise e, s3) => (Raise e, s3)
        end
    | (Raise e, _) => (Raise e, s1)
    end.
Proof.
  intros Hc Hf Hmiss Hstatus Hint s1.
  rewrite (result_miss s c fcontains Hc Hf Hmiss). cbv zeta.
  by rewrite status_2xx, Hint.
Qed.

(** With a readable and valid [Expires], the miss stores the entry. *)
Lemma result_miss_stores
    (s : state CS) (c : CacheObject CS) (fcontains : CS -> Z -> bool)
    (fset : CS -> Z -> PyVal * Z -> datetime_t -> CS) (n : Z)
    (v : string) (t : struct_time) (e : datetime_t) :
  cache (fst s) = Some c ->
  cache_contains c = Callable fcontains ->
  cache_set c = Callable fset ->
  fcontains (cache_store (snd s)) (_get_cache_key (fst s)) = false ->
  200 <= Response.status_code (response_of s) < 300 ->
  int_of_str (default "1" (ci_get (Response.headers (response_of s)) "x-pages"))
  = Some n ->
  ci_get (Response.headers (response_of s)) "expires" = Some v ->
  parsedate_str v = Some t ->
  datetime (tm_year t) (tm_mon t) (tm_mday t)
           (tm_hour t) (tm_min t) (tm_sec t) (tm_wday t) UTC = Some e ->
  result s =
    (Ok (Response.swagger_result (response_of s)),
     set_cache_store
       (fset (cache_store (snd s)) (_get_cache_key (fst s))
             (Response.swagger_result (response_of s), n) e)
       (set_num_pages n (log_call (prepare (requests_future (fst s))) s))).
Proof.
  intros Hc Hf Hset Hmiss Hstatus Hint Hh Ht He.
  rewrite (result_miss_expiry s c fcontains n) by done. cbv zeta.
  rewrite Hh. unfold expires_of, parsedate. cbn [mbind option_bind].
  rewrite Ht, He. unfold cache_put. rewrite Hset.
  unfold_monad. by destruct s.
Qed.

(** C8.  A miss of the cache on a successful response.  Without an
    [Expires] header [result] raises [TypeError] (slicing the [None] that
    [parsedate] answers) before it writes, so the cache is as it was.  With
    a header that [parsedate] reads as the tuple [t] and whose fields
    [datetime] accepts, the entry (payload, page count) is stored under the
    key with the expiry made of the fields of [t] in the zone UTC. *)
Theorem expires_required_for_cache_write
    (s : state CS) (c : CacheObject CS) (fcontains : CS -> Z -> bool)
    (fset : CS -> Z -> PyVal * Z -> datetime_t -> CS) (n : Z) :
  cache (fst s) = Some c ->
  cache_contains c = Callable fcontains ->
  cache_set c = Callable fset ->
  fcontains (cache_store (snd s)) (_get_cache_key (fst s)) = false ->
  200 <= Response.status_code (response_of s) < 300 ->
  int_of_str (default "1" (ci_get (Response.headers (response_of s)) "x-pages"))
  = Some n ->
  let h := ci_get (Response.headers (response_of s)) "expires" in
  let s1 := set_num_pages n (log_call (prepare (requests_future (fst s))) s) in
  (h = None ->
     result s = (Raise (TypeError "'NoneType' object is not subscriptable"), s1)
     /\ cache_store (snd (snd (result s))) = cache_store (snd s)) /\
  (forall v t e,
     h = Some v -> parsedate_str v = Some t ->
     datetime (tm_year t) (tm_mon t) (tm_mday t)
              (tm_hour t) (tm_min t) (tm_sec t) (tm_wday t) UTC = Some e ->
     result s =
       (Ok (Response.swagger_result (response_of s)),
        set_cache_store
          (fset (cache_store (snd s)) (_get_cache_key (fst s))
                (Response.swagger_result (response_of s), n) e) s1)
     /\ e = {| year := tm_year t; month := tm_mon t; day := tm_mday t;
               hour := tm_hour t; minute := tm_min t; second := tm_sec t;
               microsecond := tm_wday t; tz := UTC |}).
Proof.
  intros Hc Hf Hset Hmiss Hstatus Hint h s1. split.
  - intros Hh.
    rewrite (result_miss_expiry s c fcontains n) by done. cbv zeta.
    fold h. rewrite Hh. cbn. split; [reflexivity|]. by destruct s.
  - intros v t e Hh Ht He. split; [|by eapply datetime_fields].
    by apply (result_miss_stores s c fcontains fset n v t e).
Qed.

End Headers.

Section Iteration.
Context {CS : Type} `{!Runtime CS}.
Import ESIPageGenerator.










End Iteration.



Section Caching.
Context {CS : Type} `{!Runtime CS}.
Import ESIPageGenerator.

(** C7.  A generator with a cache whose three methods are callable and which
    keeps what it is given (after [set] under a key, [__contains__] holds
    for the key and [get] answers the value).  A request that misses the
    cache and gets a successful response with a readable [X-Pages] and a
    valid [Expires] makes one call and stores (payload, page count) under
    its key with the expiry.  A second request whose tuple (URL, params,
    auth, headers, method, page) is the same then gets the same payload and
    page count in the very world the first one left: no second call. *)
Theorem second_identical_request_served_from_cache
    (s : state CS) (g2 : ESIPageGenerator CS) (c : CacheObject CS)
    (fcontains : CS -> Z -> bool) (fget : CS -> Z -> option (PyVal * Z))
    (fset : CS -> Z -> PyVal * Z -> datetime_t -> CS)
    (n : Z) (v : string) (t : struct_time) (e : datetime_t) :
  cache (fst s) = Some c ->
  cache g2 = Some c ->
  cache_contains c = Callable fcontains ->
  cache_get c = Callable fget ->
  cache_set c = Callable fset ->
  (forall st k value expires,
     fcontains (fset st k value expires) k = true /\
     fget (fset st k value expires) k = Some value) ->
  fcontains (cache_store (snd s)) (_get_cache_key (fst s)) = false ->
  200 <= Response.status_code (response_of s) < 300 ->
  int_of_str (default "1" (ci_get (Response.headers (response_of s)) "x-pages"))
  = Some n ->
  ci_get (Response.headers (response_of s)) "expires" = Some v ->
  parsedate_str v = Some t ->
  datetime (tm_year t) (tm_mon t) (tm_mday t)
           (tm_hour t) (tm_min t) (tm_sec t) (tm_wday t) UTC = Some e ->
  key_tuple g2 = key_tuple (fst s) ->
  let data := Response.swagger_result (response_of s) in
  exists s1,
    result s = (Ok data, s1) /\
    net_log (snd s1) = net_log (snd s) ++ [prepare (requests_future (fst s))] /\
    cache_store (snd s1)
    = fset (cache_store (snd s)) (_get_cache_key (fst s)) (data, n) e /\
    result (g2, snd s1) = (Ok data, set_num_pages n (g2, snd s1)).
Proof.
  intros Hc Hc2 Hf Hg Hset Hlaw Hmiss Hstatus Hint Hexp Ht He Hkey data.
  assert (Hres := result_miss_stores s c fcontains fset n v t e
                    Hc Hf Hset Hmiss Hstatus Hint Hexp Ht He).
  eexists. split; [exact Hres|].
  split; [by destruct s|]. split; [by destruct s|].
  assert (Hk : _get_cache_key g2 = _get_cache_key (fst s)).
  { unfold _get_cache_key. by rewrite Hkey. }
  destruct (Hlaw (cache_store (snd s)) (_get_cache_key (fst s)) (data, n) e)
    as [Hin Hout].
  apply (result_hit _ c fcontains fget); cbn; rewrite ?Hk; done.
Qed.

End Caching.

(** A status call through a client with [Fixtures.dict_cache]: the answer is
    stored with its expiry, and the same call again is served from the
    cache. *)
Lemma second_status_call_from_cache :
  let srv := Fixtures.serve Fixtures.three_pages_expiring in
  let H := Fixtures.runtime srv in
  let c := Fixtures.dict_cache in
  let g := Fixtures.generator srv (Fixtures.get_status (Some c)) None in
  let s := (g, Fixtures.world0) in
  let data := Response.swagger_result (response_of s) in
  (forall (st : Fixtures.store) k value expires,
     (match <[k := (value, expires)]> st !! k with
      | Some _ => true | None => false end) = true /\
     fst <$> <[k := (value, expires)]> st !! k = Some value) /\
  ESIPageGenerator.key_tuple g = ESIPageGenerator.key_tuple (fst s) /\
  exists s1,
    ESIPageGenerator.result s = (Ok data, s1) /\
    net_log (snd s1)
    = net_log (snd s) ++ [prepare (requests_future (fst s))] /\
    cache_store (snd s1)
    = <[ESIPageGenerator._get_cache_key g :=
          ((data, 3),
           {| year := 2026; month := 10; day := 31; hour := 11; minute := 5;
              second := 0; microsecond := 0; tz := UTC |})]> ∅ /\
    ESIPageGenerator.result (g, snd s1)
    = (Ok data, ESIPageGenerator.set_num_pages 3 (g, snd s1)).
Proof.
  intros srv H c g s data.
  assert (Hlaw : forall (st : Fixtures.store) k value expires,
     (match <[k := (value, expires)]> st !! k with
      | Some _ => true | None => false end) = true /\
     fst <$> <[k := (value, expires)]> st !! k = Some value).
  { intros st k value expires. unfold Fixtures.store in *.
    by rewrite lookup_insert_eq. }
  split; [exact Hlaw|]. split; [reflexivity|].
  refine (second_identical_request_served_from_cache s g c _ _ _ 3
            "Sat, 31 Oct 2026 11:05:00 GMT" _ _
            eq_refl eq_refl eq_refl eq_refl eq_refl Hlaw eq_refl _
            eq_refl eq_refl eq_refl eq_refl eq_refl).
  cbn. lia.
Defined.

(** The same call when the answer has no [Expires] header: [result] raises
    [TypeError] and the cache stays empty. *)
Lemma status_call_without_expires :
  let srv := Fixtures.serve Fixtures.three_pages in
  let H := Fixtures.runtime srv in
  let c := Fixtures.dict_cache in
  let s := (Fixtures.generator srv (Fixtures.get_status (Some c)) None,
            Fixtures.world0) in
  ci_get (Response.headers (response_of s)) "expires" = None /\
  ESIPageGenerator.result s
  = (Raise (TypeError "'NoneType' object is not subscriptable"),
     ESIPageGenerator.set_num_pages 3
       (ESIPageGenerator.log_call (prepare (requests_future (fst s))) s)) /\
  cache_store (snd (snd (ESIPageGenerator.result s))) = ∅.
Proof.
  intros srv H c s. split; [reflexivity|].
  refine (proj1 (expires_required_for_cache_write s c _ _ 3
                   eq_refl eq_refl eq_refl eq_refl _ eq_refl) eq_refl).
  cbn. lia.
Defined.

(** A status call answered without an [X-Pages] header: one page. *)
Lemma status_call_without_x_pages :
  let srv := Fixtures.serve [] in
  let H := Fixtures.runtime srv in
  let s := (Fixtures.generator srv (Fixtures.get_status None) None,
            Fixtures.world0) in
  misses_cache s /\
  ci_get (Response.headers (response_of s)) "x-pages" = None /\
  num_pages (fst (snd (ESIPageGenerator.result s))) = 1.
Proof.
  intros srv H s.
  assert (Hmiss : misses_cache s) by exact I.
  assert (Hstatus : 200 <= Response.status_code (response_of s) < 300)
    by (cbn; lia).
  split; [exact Hmiss|]. split; [reflexivity|].
  exact (proj1 (x_pages_default_only_when_absent s Hmiss Hstatus) eq_refl).
Defined.

(** C5 as the spec words it fails on an [X-Pages] header that is no integer:
    the page count does not default to 1; the status call raises
    [ValueError] instead of returning its payload. *)
Lemma x_pages_not_an_integer :
  let srv := Fixtures.serve [("X-Pages", "abc")] in
  let H := Fixtures.runtime srv in
  let s := (Fixtures.generator srv (Fixtures.get_status None) None,
            Fixtures.world0) in
  ci_get (Response.headers (response_of s)) "x-pages" = Some "abc" /\
  int_of_str "abc" = None /\
  fst (ESIPageGenerator.result s)
  = Raise (ValueError "invalid literal for int() with base 10: 'abc'") /\
  fst (ESIRequestsClient.request (Fixtures.client None) Fixtures.request_params
         (Some (Fixtures.get_status None)) None Fixtures.world0)
  = Raise (ValueError "invalid literal for int() with base 10: 'abc'").
Proof. repeat split; reflexivity. Qed.

(** C3 at the failing input: page 1 of the paginated [Fixtures.get_orders]
    answered with a 403.  The advance of the generator raises bravado's
    [HTTPForbidden]; the same answer to the unpaginated [Fixtures.get_status]
    reaches the caller as [ESIForbidden] with the fixed message. *)
Lemma forbidden_page_reaches_caller_unwrapped :
  let srv := Fixtures.refuse 403 "{}" in
  let H := Fixtures.runtime srv in
  ESIRequestsClient.request (Fixtures.client None) Fixtures.request_params
    (Some (Fixtures.get_orders None)) (Some "token") Fixtures.world0
  = (Ok (Generator (Fixtures.generator srv (Fixtures.get_orders None)
                      (Some "token"))),
     Fixtures.world0) /\
  fst (ESIPageGenerator.__next__
         (Fixtures.generator srv (Fixtures.get_orders None) (Some "token"),
          Fixtures.world0))
  = Raise (HTTPForbidden
             {| Response.status_code := 403; Response.headers := ∅;
                Response.text := "{}"; Response.swagger_result := PNone |}) /\
  fst (ESIRequestsClient.request (Fixtures.client None) Fixtures.request_params
         (Some (Fixtures.get_status None)) (Some "token") Fixtures.world0)
  = Raise (ESIForbidden (PStr "Access denied")).
Proof. repeat split; reflexivity. Qed.

(** C6 at the failing input: page 1 of the paginated [Fixtures.get_orders]
    answered with a 404 whose body is the object with the [error] member
    [X not found].  The advance of the generator raises bravado's
    [HTTPNotFound], as it does for a body that is no JSON; the same answers
    to the unpaginated [Fixtures.get_status] reach the caller as
    [ESINotFound], with the message [X not found] for the first. *)
Lemma not_found_page_reaches_caller_unwrapped :
  let srv := Fixtures.refuse 404 Fixtures.not_found_body in
  let H := Fixtures.runtime srv in
  let g := Fixtures.generator srv (Fixtures.get_orders None) (Some "token") in
  ESIRequestsClient.request (Fixtures.client None) Fixtures.request_params
    (Some (Fixtures.get_orders None)) (Some "token") Fixtures.world0
  = (Ok (Generator g), Fixtures.world0) /\
  fst (ESIPageGenerator.__next__ (g, Fixtures.world0))
  = Raise (HTTPNotFound
             {| Response.status_code := 404; Response.headers := ∅;
                Response.text := Fixtures.not_found_body;
                Response.swagger_result := PNone |}) /\
  fst <$> ESIPageGenerator.iterate 3 (g, Fixtures.world0)
  = Some (Raise (HTTPNotFound
                   {| Response.status_code := 404; Response.headers := ∅;
                      Response.text := Fixtures.not_found_body;
                      Response.swagger_result := PNone |})) /\
  fst (ESIRequestsClient.request (Fixtures.client None) Fixtures.request_params
         (Some (Fixtures.get_status None)) (Some "token") Fixtures.world0)
  = Raise (ESINotFound (PStr "X not found")) /\
  let srv' := Fixtures.refuse 404 "<html>" in
  let H' := Fixtures.runtime srv' in
  fst (@ESIPageGenerator.__next__ _ H'
         (Fixtures.generator srv' (Fixtures.get_orders None) (Some "token"),
          Fixtures.world0))
  = Raise (HTTPNotFound
             {| Response.status_code := 404; Response.headers := ∅;
                Response.text := "<html>"; Response.swagger_result := PNone |}) /\
  fst (@ESIRequestsClient.request _ H' (Fixtures.client None)
         Fixtures.request_params (Some (Fixtures.get_status None))
         (Some "token") Fixtures.world0)
  = Raise (ESINotFound (PStr "Expecting value: line 1 column 1 (char 0)")).
Proof.
  intros srv H g. split; [reflexivity|]. split; [reflexivity|].
  split; [reflexivity|]. split; [reflexivity|].
  intros srv' H'. split; reflexivity.
Qed.

Section Frame.
Context {CS : Type} `{!Runtime CS}.
Import ESIPageGenerator.
#[local] Abbreviation framed := (framed (CS := CS)).

Lemma sends_only_refl (s : state CS) :
  sends_only (prepare_headers (requests_future (fst s))) s s.
Proof. split; [done|]. exists []. by rewrite app_nil_r. Qed.

Lemma sends_only_trans (h : gmap string string) (s1 s2 s3 : state CS) :
  sends_only h s1 s2 -> sends_only h s2 s3 -> sends_only h s1 s3.
Proof.
  intros [_ (c1 & Hl1 & Hc1)] [Hh (c2 & Hl2 & Hc2)]. split; [done|].
  exists (c1 ++ c2). rewrite Hl2, Hl1, app_assoc. split; [done|].
  by apply Forall_app.
Qed.

Lemma framed_ret (P : exn -> Prop) {A} (a : A) : framed P (mret a).
Proof. intros s. split; [apply sends_only_refl | done]. Qed.

Lemma framed_raise (P : exn -> Prop) {A} (e : exn) :
  P e -> framed P (raise (A := A) e).
Proof.
  intros He s. split; [apply sends_only_refl|]. cbn. by intros ? [= <-].
Qed.

Lemma framed_gets (P : exn -> Prop) {A} (f : state CS -> A) :
  framed P (gets f).
Proof. intros s. split; [apply sends_only_refl | done]. Qed.

Lemma framed_modify (P : exn -> Prop) (f : state CS -> state CS) :
  (forall s, sends_only (prepare_headers (requests_future (fst s))) s (f s)) ->
  framed P (modify f).
Proof. intros Hf s. split; [apply Hf | done]. Qed.

Lemma framed_bind (P : exn -> Prop) {A B}
    (m : M (state CS) A) (f : A -> M (state CS) B) :
  framed P m -> (forall a, framed P (f a)) -> framed P (m ≫= f).
Proof.
  intros Hm Hf s. destruct (Hm s) as [Hs He].
  unfold mbind, M_bind. destruct (m s) as [[a|e] s1]; cbn in *.
  - destruct (Hf a s1) as [Hs1 He1]. rewrite (proj1 Hs) in Hs1.
    split; [by eapply sends_only_trans | done].
  - split; [done|]. intros e' [= <-]. by apply He.
Qed.

Lemma sends_set_field (f : state CS -> state CS) :
  (forall s, requests_future (fst (f s)) = requests_future (fst s)) ->
  (forall s, net_log (snd (f s)) = net_log (snd s)) ->
  forall s, sends_only (prepare_headers (requests_future (fst s))) s (f s).
Proof.
  intros Hrf Hlog s. split; [by rewrite Hrf|].
  exists []. by rewrite Hlog, app_nil_r.
Qed.

Ltac framed_step :=
  first
    [ apply framed_ret
    | apply framed_gets
    | apply framed_raise; exact I
    | apply framed_modify; first
        [ apply sends_set_field; intros [? ?]; reflexivity
        | intros [? ?]; split; [reflexivity|];
          eexists [_]; split; [reflexivity|]; by constructor ]
    | apply framed_bind; [|intros ?]
    | match goal with
      | |- framed _ (match ?x with _ => _ end) => destruct x
      | |- framed _ (if ?b then _ else _) => destruct b
      | |- framed _ (let '(_, _) := ?x in _) => destruct x
      end ].

Lemma make_http_exception_raised (r : Response.t) :
  raised_by_result (make_http_exception r).
Proof. unfold make_http_exception. by repeat case_match. Qed.

Lemma send_framed : framed raised_by_result _send.
Proof.
  intros [g w]. unfold _send. unfold_monad. cbn.
  assert (Hlog : sends_only (prepare_headers (requests_future g)) (g, w)
                   (log_call (prepare (requests_future g)) (g, w))).
  { split; [done|]. exists [prepare (requests_future g)].
    split; [done|]. by constructor. }
  destruct (_ && _); cbn; split; try done.
  intros e [= <-]. apply make_http_exception_raised.
Qed.

Lemma result_framed : framed raised_by_result result.
Proof.
  unfold result, cache_has, cache_lookup, cache_put, x_pages, py_int,
    expires_of.
  repeat first [apply send_framed | framed_step].
Qed.

Lemma result_sends_only (s : state CS) :
  sends_only (prepare_headers (requests_future (fst s))) s (snd (result s)).
Proof. apply result_framed. Qed.

Lemma result_raises (s s' : state CS) (e : exn) :
  result s = (Raise e, s') -> raised_by_result e.
Proof. intros Hres. apply (proj2 (result_framed s)). by rewrite Hres. Qed.

Lemma get_sends_only (s : state CS) :
  sends_only (prepare_headers (requests_future (fst s))) s (snd (get s)).
Proof.
  assert (Hres := result_sends_only s).
  unfold get, try_except, loads, py_get. unfold_monad.
  destruct (result s) as [[v|e] s']; cbn in *; [done|].
  destruct e; cbn; try done.
  destruct (json_loads _) as [m|[]]; cbn; done.
Qed.

Lemma set_request_param_headers (k : string) (v : PyVal) (s : state CS) :
  prepare_headers (requests_future (fst (set_request_param k v s)))
  = prepare_headers (requests_future (fst s)).
Proof. by destruct s. Qed.

Lemma next_sends_only (s : state CS) :
  sends_only (prepare_headers (requests_future (fst s))) s (snd (__next__ s)).
Proof.
  rewrite next_eq. destruct (stop (fst s)); [apply sends_only_refl|].
  assert (Hres := result_sends_only
                    (set_request_param "page" (PInt (page (fst s))) s)).
  rewrite set_request_param_headers in Hres.
  destruct (result _) as [[v|e] [g' w']]; cbn in *.
  - destruct (_ >? _); exact Hres.
  - exact Hres.
Qed.

Lemma iterate_sends_only (fuel : nat) :
  forall (s s' : state CS) r,
    iterate fuel s = Some (r, s') ->
    sends_only (prepare_headers (requests_future (fst s))) s s'.
Proof.
  induction fuel as [|fuel IH]; intros s s' r Hit; [done|].
  cbn [iterate] in Hit. assert (Hnext := next_sends_only s).
  destruct (__next__ s) as [[v|e] s1]; cbn in Hnext.
  - destruct (iterate fuel s1) as [[r1 s2]|] eqn:Hrest; [|done].
    apply IH in Hrest. rewrite (proj1 Hnext) in Hrest.
    assert (s' = s2) as -> by (destruct r1; congruence).
    by eapply sends_only_trans.
  - assert (s' = s1) as -> by (destruct e; congruence). done.
Qed.

Lemma get_never_authorization_error (s : state CS) (msg : PyVal) :
  fst (get s) <> Raise (ESIAuthorizationError msg).
Proof.
  unfold get, try_except, loads, py_get. unfold_monad.
  destruct (result s) as [[v|e] s'] eqn:Hres; cbn; [done|].
  apply result_raises in Hres.
  destruct e; cbn in *; try done.
  destruct (json_loads _) as [m|[]]; cbn; done.
Qed.

End Frame.

Section EmptyToken.
Context {CS : Type} `{!Runtime CS}.
Import ESIPageGenerator.

(** X4.  A token that is neither [None] nor empty puts the header
    [Authorization: Bearer <token>] on the session. *)
Theorem session_bearer (self : ESIRequestsClient CS) (token : string) :
  token <> "" ->
  ci_get (ESIRequestsClient.session self (Some token)) "Authorization"
  = Some ("Bearer " +:+ token).
Proof.
  intros Hne. unfold ESIRequestsClient.session, ci_get, ci_set.
  destruct (String.eqb_spec token ""); [done|]. cbn [negb].
  rewrite lookup_insert_ne by done. by rewrite lookup_insert_eq.
Qed.

(** The empty token puts none. *)
Lemma session_empty_token (self : ESIRequestsClient CS) :
  ci_get default_headers "Authorization" = None ->
  ci_get (ESIRequestsClient.session self (Some "")) "Authorization" = None.
Proof.
  intros Hdef. unfold ESIRequestsClient.session, ci_get, ci_set in *. cbn.
  by rewrite lookup_insert_ne.
Qed.

Lemma fold_headers_no_authorization
    (l : list (string * string)) (h : gmap string string) :
  ci_get h "Authorization" = None ->
  (forall kv, In kv l -> lower (fst kv) <> "authorization") ->
  ci_get (fold_left (fun h kv => ci_set h (fst kv) (snd kv)) l h)
         "Authorization" = None.
Proof.
  revert h. induction l as [|kv l IH]; intros h Hh Hl; [done|].
  cbn [fold_left]. apply IH.
  - unfold ci_get, ci_set in *. rewrite lookup_insert_ne; [done|].
    apply Hl. by left.
  - intros kv' Hin. apply Hl. by right.
Qed.

(** C9.  An operation that requires authorization, called with the empty
    string as token on arguments bravado accepts, where neither requests'
    default headers nor the headers of the request parameters hold an
    [Authorization].  The call is the transport's request (the check for a
    missing token lets it pass) and never ends in
    [ESIAuthorizationError]; no call it sends carries an [Authorization]
    header; and if it returns a generator, the session of the generator has
    no [Authorization] header and no call of its iteration carries one. *)
Theorem empty_token_sends_no_authorization_header
    (op : Operation CS) (op_kwargs : dict) (request_params : RequestParams)
    (w : World CS) :
  (exists spec, In spec (security_specs op) /\ is_Some (spec !! "evesso")) ->
  construct_request op op_kwargs = Ok request_params ->
  ci_get default_headers "Authorization" = None ->
  (forall kv, In kv (rp_headers request_params) ->
              lower (fst kv) <> "authorization") ->
  let outcome :=
    ESICallableOperation.__call__ (ESICallableOperation.__init__ op)
      (Some "") op_kwargs w in
  outcome
  = ESIRequestsClient.request (http_client op) request_params (Some op)
      (Some "") w /\
  (forall arg, fst outcome <> Raise (ESIAuthorizationError arg)) /\
  (exists calls,
     net_log (snd outcome) = net_log w ++ calls /\
     Forall (fun c => ci_get (Sent.headers c) "Authorization" = None) calls) /\
  (forall g, fst outcome = Ok (Generator g) ->
     ci_get (RequestsFuture.session_headers (requests_future g))
            "Authorization" = None /\
     forall fuel r s',
       iterate fuel (g, snd outcome) = Some (r, s') ->
       exists calls,
         net_log (snd s') = net_log (snd outcome) ++ calls /\
         Forall (fun c => ci_get (Sent.headers c) "Authorization" = None)
                calls).
Proof.
  intros Hsec Hreq Hdef Hhdr outcome.
  assert (Hcall : outcome
            = ESIRequestsClient.request (http_client op) request_params
                (Some op) (Some "") w).
  { unfold outcome, ESICallableOperation.__call__.
    cbn [co_operation ESICallableOperation.__init__].
    rewrite Hreq. by rewrite andb_false_r. }
  split; [exact Hcall|]. rewrite Hcall. clear outcome Hcall.
  set (rf := {| RequestsFuture.session_headers :=
                  ESIRequestsClient.session (http_client op) (Some "");
                RequestsFuture.request :=
                  ESIRequestsClient.authenticated_request request_params |}).
  assert (Hprep : ci_get (prepare_headers rf) "Authorization" = None).
  { unfold prepare_headers. apply fold_headers_no_authorization; [|done].
    by apply session_empty_token. }
  assert (Hsends : forall (s s' : state CS),
            prepare_headers (requests_future (fst s)) = prepare_headers rf ->
            sends_only (prepare_headers (requests_future (fst s))) s s' ->
            exists calls,
              net_log (snd s') = net_log (snd s) ++ calls /\
              Forall (fun c => ci_get (Sent.headers c) "Authorization" = None)
                     calls).
  { intros s s' Hrf [_ (calls & Hlog & Hall)]. exists calls. split; [done|].
    eapply Forall_impl; [exact Hall|]. cbn. intros c ->. by rewrite Hrf. }
  unfold ESIRequestsClient.request. fold rf.
  destruct (ESIPageGenerator.__init__ rf (Some op)
              (client_cache (http_client op))) as [g|e] eqn:Hinit.
  - assert (Hg : requests_future g = rf).
    { unfold ESIPageGenerator.__init__ in Hinit.
      repeat case_match; by simplify_eq. }
    destruct (ESIRequestsClient.has_page op).
    + cbn. split; [done|]. split.
      { exists []. by rewrite app_nil_r. }
      intros g' [= <-]. rewrite Hg. split; [by apply session_empty_token|].
      intros fuel r s' Hit. apply iterate_sends_only in Hit.
      eapply (Hsends (g, w)); [by cbn; rewrite Hg | exact Hit].
    + assert (Hget := get_sends_only (g, w)).
      assert (Hne := get_never_authorization_error (g, w)).
      destruct (get (g, w)) as [[v|e] s'] eqn:Heq; cbn [fst snd] in *.
      * split; [done|]. split; [|done].
        eapply (Hsends (g, w)); [by cbn; rewrite Hg | exact Hget].
      * split; [intros arg [= ->]; by apply (Hne arg)|]. split; [|done].
        eapply (Hsends (g, w)); [by cbn; rewrite Hg | exact Hget].
  - assert (He : e = AssertionError).
    { unfold ESIPageGenerator.__init__ in Hinit.
      repeat case_match; by simplify_eq. }
    subst e.
    destruct (ESIRequestsClient.has_page op); cbn;
      (split; [done|]; split; [|done]; exists []; by rewrite app_nil_r).
Qed.

End EmptyToken.

(** The session of a call with the token [abc]. *)
Lemma session_bearer_abc :
  let H := Fixtures.runtime (Fixtures.serve Fixtures.three_pages) in
  "abc" <> "" /\
  ci_get (ESIRequestsClient.session (Fixtures.client None) (Some "abc"))
         "Authorization"
  = Some "Bearer abc".
Proof.
  intros H.
  assert (Hne : "abc" <> "") by discriminate.
  split; [exact Hne|].
  exact (session_bearer (Fixtures.client None) "abc" Hne).
Defined.

(** [Fixtures.get_orders] called with the empty token: no authorization error,
    a generator, and no [Authorization] header on its session or on the
    calls of its iteration. *)
Lemma empty_token_on_orders :
  let srv := Fixtures.serve Fixtures.three_pages in
  let H := Fixtures.runtime srv in
  let op := Fixtures.get_orders None in
  let outcome :=
    ESICallableOperation.__call__ (ESICallableOperation.__init__ op)
      (Some "") [] Fixtures.world0 in
  require_authorization (ESICallableOperation.__init__ op) = true /\
  ci_get default_headers "Authorization" = None /\
  fst outcome = Ok (Generator (Fixtures.generator srv op (Some ""))) /\
  (forall arg, fst outcome <> Raise (ESIAuthorizationError arg)) /\
  ci_get (RequestsFuture.session_headers
            (requests_future (Fixtures.generator srv op (Some ""))))
         "Authorization" = None /\
  forall fuel r s',
    ESIPageGenerator.iterate fuel
      (Fixtures.generator srv op (Some ""), snd outcome) = Some (r, s') ->
    exists calls,
      net_log (snd s') = net_log (snd outcome) ++ calls /\
      Forall (fun c => ci_get (Sent.headers c) "Authorization" = None) calls.
Proof.
  intros srv H op outcome.
  assert (Hsec : exists spec, In spec (security_specs op)
                              /\ is_Some (spec !! "evesso")).
  { eexists. split; [left; reflexivity|]. by eexists. }
  destruct (empty_token_sends_no_authorization_header (Runtime0 := H) op []
              Fixtures.request_params Fixtures.world0 Hsec eq_refl eq_refl)
    as (_ & Hne & _ & Hgen).
  { intros kv []. }
  split; [reflexivity|]. split; [reflexivity|].
  assert (Hout : fst outcome
                 = Ok (Generator (Fixtures.generator srv op (Some "")))).
  2: { split; [exact Hout|]. split; [exact Hne|]. exact (Hgen _ Hout). }
  reflexivity.
Defined.

(** ** The cache key *)

Lemma mod_eq_divide (M a b : Z) :
  0 < M -> a mod M = b mod M -> (M | a - b).
Proof.
  intros HM Heq. exists (a / M - b / M).
  rewrite (Z.div_mod a M), (Z.div_mod b M) at 1 by lia. rewrite Heq. ring.
Qed.

Lemma affine_mod_inj (M c a x y : Z) :
  0 < M -> Z.gcd M c = 1 ->
  0 <= x < M -> 0 <= y < M ->
  (a + x * c) mod M = (a + y * c) mod M -> x = y.
Proof.
  intros HM Hgcd Hx Hy Heq.
  apply mod_eq_divide in Heq; [|done].
  replace (a + x * c - (a + y * c)) with (c * (x - y)) in Heq by ring.
  apply Z.gauss in Heq; [|done].
  destruct Heq as [k Hk].
  assert (k = 0) by nia. lia.
Qed.

Lemma mul_mod_inj (M c x y : Z) :
  0 < M -> Z.gcd M c = 1 ->
  0 <= x < M -> 0 <= y < M ->
  (x * c) mod M = (y * c) mod M -> x = y.
Proof.
  intros HM Hgcd Hx Hy Heq. apply (affine_mod_inj M c 0 x y); try done.
Qed.

Lemma land_disjoint (a b : Z) :
  0 <= b < 2 ^ 31 -> Z.land (a * 2 ^ 31) b = 0.
Proof.
  intros Hb. apply Z.bits_inj'. intros i Hi.
  rewrite Z.land_spec, Z.bits_0.
  destruct (Z.lt_ge_cases i 31) as [Hlt|Hge].
  - by rewrite Z.mul_pow2_bits_low by lia.
  - destruct (Z.eq_dec b 0) as [->|Hne].
    + by rewrite Z.bits_0, andb_false_r.
    + rewrite (Z.bits_above_log2 b i), andb_false_r; [done|lia|].
      apply Z.log2_lt_pow2; [lia|].
      assert (2 ^ 31 <= 2 ^ i) by (apply Z.pow_le_mono_r; lia). lia.
Qed.

Lemma lor_disjoint (a b : Z) :
  0 <= b < 2 ^ 31 -> Z.lor (a * 2 ^ 31) b = a * 2 ^ 31 + b.
Proof.
  intros Hb.
  rewrite <- Z.lxor_lor, <- Z.add_nocarry_lxor; try done.
  all: by apply land_disjoint.
Qed.

Lemma rotate_split (x : Z) :
  0 <= x < 2 ^ 64 ->
  PyHASH_XXROTATE x = (x mod 2 ^ 33) * 2 ^ 31 + x / 2 ^ 33.
Proof.
  intros Hx. unfold PyHASH_XXROTATE.
  rewrite Z.shiftl_mul_pow2, Z.shiftr_div_pow2 by lia.
  assert (Hmod : (x * 2 ^ 31) mod 2 ^ 64 = (x mod 2 ^ 33) * 2 ^ 31).
  { change (2 ^ 64) with (2 ^ 33 * 2 ^ 31).
    rewrite Z.mul_mod_distr_r by lia. done. }
  rewrite Hmod. apply lor_disjoint.
  split; [apply Z.div_pos; lia|]. apply Z.div_lt_upper_bound; lia.
Qed.

Lemma rotate_range (x : Z) :
  0 <= x < 2 ^ 64 -> 0 <= PyHASH_XXROTATE x < 2 ^ 64.
Proof.
  intros Hx. rewrite rotate_split by done.
  assert (0 <= x mod 2 ^ 33 < 2 ^ 33) by (apply Z.mod_pos_bound; lia).
  assert (0 <= x / 2 ^ 33 < 2 ^ 31).
  { split; [apply Z.div_pos; lia|]. apply Z.div_lt_upper_bound; lia. }
  lia.
Qed.

Lemma rotate_inj (x y : Z) :
  0 <= x < 2 ^ 64 -> 0 <= y < 2 ^ 64 ->
  PyHASH_XXROTATE x = PyHASH_XXROTATE y -> x = y.
Proof.
  intros Hx Hy. rewrite !rotate_split by done. intros Heq.
  assert (0 <= x mod 2 ^ 33 < 2 ^ 33) by (apply Z.mod_pos_bound; lia).
  assert (0 <= y mod 2 ^ 33 < 2 ^ 33) by (apply Z.mod_pos_bound; lia).
  assert (0 <= x / 2 ^ 33 < 2 ^ 31).
  { split; [apply Z.div_pos; lia|]. apply Z.div_lt_upper_bound; lia. }
  assert (0 <= y / 2 ^ 33 < 2 ^ 31).
  { split; [apply Z.div_pos; lia|]. apply Z.div_lt_upper_bound; lia. }
  rewrite (Z.div_mod x (2 ^ 33)), (Z.div_mod y (2 ^ 33)) by lia.
  assert (x mod 2 ^ 33 = y mod 2 ^ 33 /\ x / 2 ^ 33 = y / 2 ^ 33) as [-> ->];
    [|done].
  lia.
Qed.

Lemma to_hash_inj (x y : Z) :
  0 <= x < 2 ^ 64 -> 0 <= y < 2 ^ 64 -> to_hash x = to_hash y -> x = y.
Proof.
  unfold to_hash. intros Hx Hy.
  destruct (Z.ltb_spec x (2 ^ 63)), (Z.ltb_spec y (2 ^ 63)); lia.
Qed.

Lemma long_hash_small (p : Z) :
  0 <= p < PyHASH_MODULUS -> long_hash p = p.
Proof.
  intros Hp. unfold long_hash.
  rewrite Z.abs_eq, Z.mod_small by lia.
  destruct (Z.eq_dec p 0) as [->|Hne]; [done|].
  rewrite Z.sgn_pos by lia.
  destruct (Z.eqb_spec (1 * p) (-1)); lia.
Qed.

Lemma tuplehash_round_inj (acc x y : Z) :
  0 <= x < 2 ^ 64 -> 0 <= y < 2 ^ 64 ->
  tuplehash_round acc x = tuplehash_round acc y -> x = y.
Proof.
  intros Hx Hy. unfold tuplehash_round, to_uhash.
  rewrite (Z.mod_small x), (Z.mod_small y) by done. intros Heq.
  assert (Hu : forall z, 0 <= (acc + z * PyHASH_XXPRIME_2) mod 2 ^ 64 < 2 ^ 64)
    by (intros z; apply Z.mod_pos_bound; lia).
  apply mul_mod_inj in Heq;
    [|lia|reflexivity|by apply rotate_range..].
  apply rotate_inj in Heq; [|done..].
  by apply (affine_mod_inj (2 ^ 64) PyHASH_XXPRIME_2 acc); [lia|reflexivity|..].
Qed.

Lemma tuplehash_last_inj (lanes : list Z) (x y : Z) :
  0 <= x < 2 ^ 64 -> 0 <= y < 2 ^ 64 -> x <> y ->
  tuplehash (lanes ++ [x]) <> 1546275796 ->
  tuplehash (lanes ++ [x]) <> tuplehash (lanes ++ [y]).
Proof.
  intros Hx Hy Hne Hk Heq. apply Hne. revert Hk Heq.
  unfold tuplehash, tuplehash_acc. rewrite !fold_left_app, !length_app.
  cbn [fold_left length].
  set (acc := fold_left tuplehash_round lanes PyHASH_XXPRIME_5).
  set (c := Z.lxor _ _).
  assert (Hr : forall z, 0 <= (tuplehash_round acc z + c) mod 2 ^ 64 < 2 ^ 64)
    by (intros z; apply Z.mod_pos_bound; lia).
  assert (Hrng : forall z, 0 <= tuplehash_round acc z < 2 ^ 64)
    by (intros z; apply Z.mod_pos_bound; lia).
  assert (Hinj : (tuplehash_round acc x + c) mod 2 ^ 64
                 = (tuplehash_round acc y + c) mod 2 ^ 64 -> x = y).
  { intros Hacc. apply (tuplehash_round_inj acc); [done..|].
    apply (affine_mod_inj (2 ^ 64) 1 c); [lia|reflexivity|done..|].
    by rewrite !Z.mul_1_r, !(Z.add_comm c). }
  destruct (Z.eqb_spec ((tuplehash_round acc x + c) mod 2 ^ 64) (2 ^ 64 - 1))
    as [Hx1|Hx1]; [done|].
  destruct (Z.eqb_spec ((tuplehash_round acc y + c) mod 2 ^ 64) (2 ^ 64 - 1))
    as [Hy1|Hy1].
  - intros Hk Heq. by rewrite Heq in Hk.
  - intros _ Heq. apply Hinj. by apply to_hash_inj.
Qed.

Section CacheKey.
Context {CS : Type} `{!Runtime CS}.
Import ESIPageGenerator.

(** The key reads the items of the tuple through their hashes only. *)
Lemma hash_key_tuple_lanes (t1 t2 : KeyTuple) :
  hash_str (k_url t1) = hash_str (k_url t2) ->
  hash_str (k_params t1) = hash_str (k_params t2) ->
  hash_str (k_auth t1) = hash_str (k_auth t2) ->
  hash_str (k_headers t1) = hash_str (k_headers t2) ->
  hash_str (k_method t1) = hash_str (k_method t2) ->
  long_hash (k_page t1) = long_hash (k_page t2) ->
  hash_key_tuple t1 = hash_key_tuple t2.
Proof. unfold hash_key_tuple. by intros -> -> -> -> -> ->. Qed.

(** C4, as the code has it.  The key is a function of the tuple: generators
    with the same tuple have the same key.  Two generators whose tuples
    differ in the page only, both pages in [0, 2^61 - 1), have different
    keys unless the key is 1546275796, the value [hash] puts in the place of
    an accumulator of all ones. *)
Theorem cache_key_function_of_tuple (g1 g2 : ESIPageGenerator CS) :
  let t1 := key_tuple g1 in
  let t2 := key_tuple g2 in
  (t1 = t2 -> _get_cache_key g1 = _get_cache_key g2) /\
  (k_url t1 = k_url t2 -> k_params t1 = k_params t2 ->
   k_auth t1 = k_auth t2 -> k_headers t1 = k_headers t2 ->
   k_method t1 = k_method t2 ->
   0 <= page g1 < PyHASH_MODULUS -> 0 <= page g2 < PyHASH_MODULUS ->
   page g1 <> page g2 ->
   _get_cache_key g1 <> 1546275796 ->
   _get_cache_key g1 <> _get_cache_key g2).
Proof.
  intros t1 t2. split.
  - unfold _get_cache_key. fold t1 t2. by intros ->.
  - intros Hurl Hparams Hauth Hheaders Hmethod Hp1 Hp2 Hne.
    unfold _get_cache_key, hash_key_tuple. fold t1 t2.
    rewrite Hurl, Hparams, Hauth, Hheaders, Hmethod.
    change (k_page t1) with (page g1). change (k_page t2) with (page g2).
    rewrite !long_hash_small by done.
    unfold PyHASH_MODULUS in *.
    apply (tuplehash_last_inj
             [hash_str (k_url t2); hash_str (k_params t2);
              hash_str (k_auth t2); hash_str (k_headers t2);
              hash_str (k_method t2)]); [lia|lia|done].
Qed.

(** X2.  The bearer token is a header of the session and no part of the
    tuple: the generators of the same request made with two tokens have the
    same cache key. *)
Theorem cache_key_ignores_token
    (self : ESIRequestsClient CS) (request_params : RequestParams)
    (operation : option (Operation CS)) (token1 token2 : option string)
    (g1 g2 : ESIPageGenerator CS) :
  ESIPageGenerator.__init__
    {| RequestsFuture.session_headers := ESIRequestsClient.session self token1;
       RequestsFuture.request :=
         ESIRequestsClient.authenticated_request request_params |}
    operation (client_cache self) = Ok g1 ->
  ESIPageGenerator.__init__
    {| RequestsFuture.session_headers := ESIRequestsClient.session self token2;
       RequestsFuture.request :=
         ESIRequestsClient.authenticated_request request_params |}
    operation (client_cache self) = Ok g2 ->
  key_tuple g1 = key_tuple g2 /\ _get_cache_key g1 = _get_cache_key g2.
Proof.
  unfold ESIPageGenerator.__init__. intros H1 H2.
  assert (Hk : key_tuple g1 = key_tuple g2)
    by (repeat case_match; by simplify_eq).
  split; [exact Hk|]. unfold _get_cache_key. by rewrite Hk.
Qed.

End CacheKey.

(** The status call made with two different tokens: one key. *)
Lemma cache_key_of_two_tokens :
  let srv := Fixtures.serve Fixtures.three_pages_expiring in
  let H := Fixtures.runtime srv in
  let c := Some Fixtures.dict_cache in
  let g1 := Fixtures.generator srv (Fixtures.get_status c) (Some "alice") in
  let g2 := Fixtures.generator srv (Fixtures.get_status c) (Some "bob") in
  requests_future g1 <> requests_future g2 /\
  ESIPageGenerator.key_tuple g1 = ESIPageGenerator.key_tuple g2 /\
  ESIPageGenerator._get_cache_key g1 = ESIPageGenerator._get_cache_key g2.
Proof.
  intros srv H c g1 g2. split.
  - intros Heq.
    apply (f_equal (fun f => ci_get (RequestsFuture.session_headers f)
                               "Authorization")) in Heq.
    vm_compute in Heq. discriminate Heq.
  - exact (cache_key_ignores_token (Fixtures.client c) Fixtures.request_params
             (Some (Fixtures.get_status c)) (Some "alice") (Some "bob")
             g1 g2 eq_refl eq_refl).
Defined.

(** The status call at page 1 and at page 2: different keys. *)
Lemma cache_key_pages_one_and_two :
  let srv := Fixtures.serve Fixtures.three_pages in
  let H := Fixtures.runtime srv in
  let g1 := Fixtures.generator srv (Fixtures.get_status None) None in
  let g2 := fst (ESIPageGenerator.set_page 2 (g1, Fixtures.world0)) in
  page g1 = 1 /\ page g2 = 2 /\
  ESIPageGenerator._get_cache_key g1 <> 1546275796 /\
  ESIPageGenerator._get_cache_key g1 <> ESIPageGenerator._get_cache_key g2.
Proof.
  intros srv H g1 g2.
  assert (Hk : ESIPageGenerator._get_cache_key g1 <> 1546275796)
    by (vm_compute; discriminate).
  split; [reflexivity|]. split; [reflexivity|]. split; [exact Hk|].
  apply (proj2 (cache_key_function_of_tuple g1 g2));
    try reflexivity; try exact Hk.
  - vm_compute. split; [discriminate | reflexivity].
  - vm_compute. split; [discriminate | reflexivity].
  - discriminate.
Defined.

(** C4 as the spec words it fails: the status call at page 1 and at page
    2^61 have tuples that differ (in the page only) and the same key,
    whatever the hash of strings is, since [hash(2**61) == hash(1)]. *)
Lemma cache_key_collision_on_page :
  let srv := Fixtures.serve Fixtures.three_pages in
  let g1 := Fixtures.generator srv (Fixtures.get_status None) None in
  let g2 := fst (ESIPageGenerator.set_page (2 ^ 61) (g1, Fixtures.world0)) in
  page g1 = 1 /\ page g2 = 2 ^ 61 /\
  requests_future g1 = requests_future g2 /\
  (forall H : Runtime Fixtures.store,
     ESIPageGenerator.key_tuple g1 <> ESIPageGenerator.key_tuple g2 /\
     ESIPageGenerator._get_cache_key g1 = ESIPageGenerator._get_cache_key g2).
Proof.
  intros srv g1 g2. split; [reflexivity|]. split; [reflexivity|].
  split; [reflexivity|]. intros H. split.
  - intros Heq. apply (f_equal k_page) in Heq. discriminate Heq.
  - apply hash_key_tuple_lanes; reflexivity.
Qed.

(** * The effects of a fetch, the error mapping, the transport, the facade *)

Section Effects.
Context {CS : Type} `{!Runtime CS}.
Import ESIPageGenerator.

(** What [result] does to the world and to the generator. *)
Lemma result_effect (s : state CS) :
  fetch_effect s (fst (result s)) (snd (result s)) /\
  same_but_num_pages (fst s) (fst (snd (result s))).
Proof.
  destruct s as [g w]. unfold fetch_effect, same_but_num_pages, response_of.
  unfold result, cache_has, cache_lookup, cache_put, _send, x_pages, py_int,
    expires_of.
  unfold_monad. cbn.
  repeat (destruct_innermost; cbn);
    (split; [|done]);
    try (left; done); try (right; split; [done|left; done]).
  right. split; [done|]. right. eexists _, _, _.
  repeat split; try done.
  all: match goal with
       | H : _ && _ = true |- _ => apply andb_true_iff in H; destruct H
       end; lia.
Qed.

Lemma get_effect (s : state CS) :
  fetch_effect s (fst (get s)) (snd (get s)) /\
  same_but_num_pages (fst s) (fst (snd (get s))).
Proof.
  destruct (result_effect s) as [Heff Hgen].
  unfold get, try_except, loads, py_get. unfold_monad.
  destruct (result s) as [[v|e] s'] eqn:Hres; cbn [fst snd] in *; [done|].
  assert (Hraise : forall e', fetch_effect s (Raise e') s').
  { intros e'. destruct Heff as [Hquiet|[Hlog [Hsame|Hset]]].
    - by left.
    - right. split; [done|]. by left.
    - by destruct Hset as (? & ? & ? & _ & _ & _ & [=] & _). }
  destruct e; cbn; try done.
  destruct (json_loads _) as [m|[]]; cbn; done.
Qed.

Lemma next_effect (s : state CS) :
  let s1 := set_request_param "page" (PInt (page (fst s))) s in
  let s' := snd (__next__ s) in
  if stop (fst s) then __next__ s = (Raise StopIteration, s)
  else
    fetch_effect s1 (fst (__next__ s)) s' /\
    requests_future (fst s') = requests_future (fst s1) /\
    operation (fst s') = operation (fst s) /\
    cache (fst s') = cache (fst s) /\
    match fst (__next__ s) with
    | Ok _ =>
        page (fst s') = page (fst s) + 1 /\
        stop (fst s') = (page (fst s') >? num_pages (fst s'))
    | Raise _ => page (fst s') = page (fst s) /\ stop (fst s') = false
    end.
Proof.
  intros s1 s'. subst s'. rewrite next_eq.
  destruct (stop (fst s)) eqn:Hstop; [done|]. fold s1.
  destruct (result_effect s1) as [Heff (Hrf & Hop & Hpage & Hst & Hc)].
  destruct (result s1) as [[v|e] [g' w']] eqn:Hres; cbn [fst snd] in *.
  - assert (Heff' : forall g'', num_pages g'' = num_pages g' ->
                      fetch_effect s1 (Ok v) (g'', w')).
    { intros g'' Hn. unfold fetch_effect in *. cbn [fst snd] in *.
      by rewrite Hn. }
    destruct s as [g w]. subst s1. cbn in Hrf, Hop, Hpage, Hst, Hc, Hstop |- *.
    destruct (page g' + 1 >? num_pages g') eqn:Hgt; cbn;
      rewrite ?Hgt; (split; [by apply Heff'|]);
      repeat split; congruence.
  - destruct s as [g w]. subst s1. cbn in *. repeat split; congruence.
Qed.

Lemma fetch_effect_log (s : state CS) (r : Result PyVal) (s' : state CS) :
  fetch_effect s r s' ->
  net_log (snd s') = net_log (snd s) \/
  net_log (snd s') = net_log (snd s) ++ [prepare (requests_future (fst s))].
Proof. intros [[Hq _]|[Hl _]]; [by left | by right]. Qed.

Lemma dict_set_set (d : dict) (k : string) (v v' : PyVal) :
  dict_set (dict_set d k v) k v' = dict_set d k v'.
Proof.
  induction d as [|[k0 v0] d IH]; cbn.
  - by rewrite String.eqb_refl.
  - destruct (String.eqb k0 k) eqn:E; cbn.
    + by rewrite String.eqb_refl.
    + by rewrite E, IH.
Qed.

Lemma dict_get_set_ne (d : dict) (k k' : string) (v dflt : PyVal) :
  k <> k' -> dict_get (dict_set d k v) k' dflt = dict_get d k' dflt.
Proof.
  intros Hne. induction d as [|[k0 v0] d IH]; cbn.
  - by destruct (String.eqb_spec k k').
  - destruct (String.eqb_spec k0 k) as [->|Hk]; cbn.
    + destruct (String.eqb_spec k k'); [done|]. done.
    + destruct (String.eqb_spec k0 k'); [done|]. apply IH.
Qed.

Lemma get_state (s : state CS) : snd (get s) = snd (result s).
Proof.
  unfold get, try_except, loads, py_get. unfold_monad.
  destruct (result s) as [[v|e] s']; cbn [snd]; [done|].
  destruct e; cbn; try done.
  destruct (json_loads _) as [m|[]]; cbn; done.
Qed.

Lemma result_miss_log (s : state CS) :
  misses_cache s ->
  net_log (snd (snd (result s)))
  = net_log (snd s) ++ [prepare (requests_future (fst s))].
Proof.
  unfold misses_cache. destruct (cache (fst s)) as [c|] eqn:Hc.
  - intros (f & Hf & Hmiss). rewrite (result_miss s c f Hc Hf Hmiss).
    cbv zeta. unfold expires_of, cache_put. unfold_monad.
    destruct s as [g w]. repeat (destruct_innermost; cbn); done.
  - intros _. rewrite (result_no_cache s Hc). cbv zeta.
    destruct s as [g w]. repeat (destruct_innermost; cbn); done.
Qed.

Lemma result_hit_log (s : state CS) :
  hits_cache s -> net_log (snd (snd (result s))) = net_log (snd s).
Proof.
  intros (c & f & Hc & Hf & Hhit). destruct s as [g w]. cbn in *.
  unfold result, cache_has, cache_lookup. unfold_monad. cbn.
  rewrite Hc, Hf. cbn. rewrite Hhit.
  repeat (destruct_innermost; cbn); done.
Qed.

(** X8.  A fetch sends one call on a miss of the cache and none on a hit,
    and never two: [result] and [get], which leave the same state, add to
    the log of calls the prepared request of the generator or nothing;
    [__next__] adds that request with the [page] parameter set to the page
    of the generator, or nothing; a stopped generator changes nothing. *)
Theorem fetch_sends_at_most_one_call (s : state CS) :
  let log := net_log (snd s) in
  let call := prepare (requests_future (fst s)) in
  snd (get s) = snd (result s) /\
  (misses_cache s -> net_log (snd (snd (result s))) = log ++ [call]) /\
  (hits_cache s -> net_log (snd (snd (result s))) = log) /\
  (net_log (snd (snd (result s))) = log \/
   net_log (snd (snd (result s))) = log ++ [call]) /\
  (net_log (snd (snd (__next__ s))) = log \/
   net_log (snd (snd (__next__ s))) = log ++ [call_of s]) /\
  (stop (fst s) = true -> snd (__next__ s) = s).
Proof.
  intros log call.
  split; [apply get_state|].
  split; [apply result_miss_log|].
  split; [apply result_hit_log|].
  split; [eapply fetch_effect_log; apply (proj1 (result_effect s))|].
  assert (Hnext := next_effect s). cbv zeta in Hnext.
  destruct (stop (fst s)) eqn:Hstop.
  - rewrite Hnext. split; [by left|done].
  - split; [|done]. destruct Hnext as [Heff _].
    apply fetch_effect_log in Heff. by destruct s.
Qed.

(** X9.  The cache changes only by the write of a miss that succeeded:
    after [result], [get] or [__next__] the cache is as it was, or the one
    call sent was answered with a 2xx status, the method yields the payload
    of that answer, and the cache is the old one after one [set] of
    (payload, page count) under the key of the request.  An error status, an
    unreadable [X-Pages] or a missing [Expires] leave the cache as it was. *)
Theorem cache_written_only_on_success (s : state CS) :
  let written (s0 : state CS) (r : Result PyVal) (s' : state CS) :=
    cache_store (snd s') = cache_store (snd s0) \/
    (200 <= Response.status_code (response_of s0) < 300 /\
     r = Ok (Response.swagger_result (response_of s0)) /\
     net_log (snd s')
     = net_log (snd s0) ++ [prepare (requests_future (fst s0))] /\
     exists c fset e,
       cache (fst s0) = Some c /\ cache_set c = Callable fset /\
       cache_store (snd s')
       = fset (cache_store (snd s0)) (_get_cache_key (fst s0))
              (Response.swagger_result (response_of s0), num_pages (fst s'))
              e) in
  written s (fst (result s)) (snd (result s)) /\
  written s (fst (get s)) (snd (get s)) /\
  written (set_request_param "page" (PInt (page (fst s))) s)
          (fst (__next__ s)) (snd (__next__ s)).
Proof.
  intros written.
  assert (Hw : forall s0 r (s' : state CS),
            fetch_effect s0 r s' -> written s0 r s').
  { intros s0 r s' [[_ Hq]|[Hl [Hsame|Hset]]]; [by left | by left |].
    destruct Hset as (c & fset & e & Hc & Hs & Hst & Hr & Hstore).
    right. repeat split; try done; try lia. by exists c, fset, e. }
  split; [apply Hw, (proj1 (result_effect s))|].
  split; [apply Hw, (proj1 (get_effect s))|].
  assert (Hnext := next_effect s). cbv zeta in Hnext.
  destruct (stop (fst s)) eqn:Hstop.
  - rewrite Hnext. left. by destruct s.
  - apply Hw. by destruct Hnext.
Qed.

(** X10.  An advance that yields a value moves the generator one page on
    and leaves the [page] parameter of the request at the page fetched; an
    advance that raises leaves the page and the stop flag as they were, and
    the next advance sends the same call again. *)
Theorem advance_moves_one_page_or_none (s : state CS) :
  let s' := snd (__next__ s) in
  (forall v, fst (__next__ s) = Ok v ->
     page (fst s') = page (fst s) + 1 /\
     page_param (fst s') = PInt (page (fst s))) /\
  (forall e, fst (__next__ s) = Raise e ->
     page (fst s') = page (fst s) /\
     stop (fst s') = stop (fst s) /\
     call_of s' = call_of s).
Proof.
  intros s'. assert (Hnext := next_effect s). cbv zeta in Hnext.
  fold s' in Hnext.
  destruct (stop (fst s)) eqn:Hstop.
  - subst s'. rewrite Hnext. cbn. split; [done|]. intros e _.
    by rewrite Hstop.
  - destruct Hnext as (_ & Hrf & _ & _ & Hres). split.
    + intros v Hv. rewrite Hv in Hres. destruct Hres as [Hp _].
      split; [done|]. unfold page_param. rewrite Hrf.
      destruct s as [g w]. cbn. apply dict_get_set.
    + intros e He. rewrite He in Hres. destruct Hres as [Hp Hs].
      split; [done|]. split; [done|].
      unfold call_of. f_equal.
      destruct s' as [g' w'], s as [g w]. cbn in *.
      rewrite Hrf, Hp. cbn. by rewrite dict_set_set.
Qed.


Lemma next_same_request (s : state CS) :
  same_request_but_page (fst s) (fst (snd (__next__ s))).
Proof.
  assert (Hnext := next_effect s). cbv zeta in Hnext.
  destruct (stop (fst s)).
  - rewrite Hnext. cbn. unfold same_request_but_page. repeat split; by left.
  - destruct Hnext as (_ & Hrf & Hop & Hc & _).
    unfold same_request_but_page. rewrite Hrf, Hop, Hc.
    destruct s as [g w]. cbn. repeat split. right. by eexists.
Qed.

(** X11.  Advancing changes nothing of the request but its [page]
    parameter: after any number of advances the session, the URL, the auth,
    the headers and the method of the request, the operation and the cache
    of the generator are the ones it started with, and every parameter other
    than [page] reads as before. *)
Theorem iteration_touches_only_page_param (k : nat) (s : state CS) :
  same_request_but_page (fst s) (fst (advance k s)) /\
  forall key dflt, key <> "page" ->
    dict_get (Request.params (RequestsFuture.request
                                (requests_future (fst (advance k s)))))
             key dflt
    = dict_get (Request.params (RequestsFuture.request
                                  (requests_future (fst s)))) key dflt.
Proof.
  assert (Hsame : same_request_but_page (fst s) (fst (advance k s))).
  { induction k as [|k IH].
    - unfold same_request_but_page. repeat split; by left.
    - cbn [advance].
      destruct (next_same_request (advance k s))
        as (H1 & H2 & H3 & H4 & H5 & H6 & H7 & H8).
      destruct IH as (I1 & I2 & I3 & I4 & I5 & I6 & I7 & I8).
      unfold same_request_but_page.
      rewrite H1, H2, H3, H4, H5, H6, H7.
      repeat split; try done.
      destruct H8 as [->|[p ->]]; [done|].
      destruct I8 as [->|[q ->]]; right; [by eexists|].
      exists p. by rewrite dict_set_set. }
  split; [done|]. intros key dflt Hkey.
  destruct Hsame as (_ & _ & _ & _ & _ & _ & _ & [->|[p ->]]); [done|].
  by apply dict_get_set_ne.
Qed.

(** X12.  A generator that [__init__] built, after any [k] advances: its
    page is between 1 and [k + 1]; if it is stopped, its page is past the
    page count, and every further advance raises [StopIteration] and changes
    nothing. *)
Theorem generator_invariant
    (rf : RequestsFuture.t) (op : option (Operation CS))
    (c : option (CacheObject CS)) (g : ESIPageGenerator CS)
    (w : World CS) (k : nat) :
  ESIPageGenerator.__init__ rf op c = Ok g ->
  let s := advance k (g, w) in
  1 <= page (fst s) <= 1 + Z.of_nat k /\
  (stop (fst s) = true -> num_pages (fst s) < page (fst s)) /\
  (stop (fst s) = true ->
   forall j, advance j s = s /\ __next__ s = (Raise StopIteration, s)).
Proof.
  intros Hinit s.
  assert (Hg : page g = 1 /\ stop g = false).
  { unfold ESIPageGenerator.__init__ in Hinit.
    repeat case_match; by simplify_eq. }
  assert (Hinv : 1 <= page (fst s) <= 1 + Z.of_nat k /\
                 (stop (fst s) = true -> num_pages (fst s) < page (fst s))).
  { subst s. induction k as [|k IH].
    - cbn. destruct Hg as [-> ->]. split; [lia|done].
    - cbn [advance]. destruct IH as [Hp Hs].
      assert (Hnext := next_effect (advance k (g, w))). cbv zeta in Hnext.
      destruct (stop (fst (advance k (g, w)))) eqn:Hstop.
      + rewrite Hnext. cbn [snd]. rewrite Hstop. split; [lia|auto].
      + destruct Hnext as (_ & _ & _ & _ & Hres).
        destruct (fst (__next__ (advance k (g, w)))).
        * destruct Hres as [Hp' Hs']. rewrite Hs', Hp'. split; [lia|].
          rewrite Z.gtb_ltb. intros Hlt%Z.ltb_lt. lia.
        * destruct Hres as [Hp' Hs']. rewrite Hs', Hp'. split; [lia|done]. }
  split; [apply Hinv|]. split; [apply Hinv|].
  intros Hstop j. split; [|by apply next_stopped].
  induction j as [|j IH]; [done|]. cbn [advance]. rewrite IH.
  by rewrite next_stopped.
Qed.

End Effects.

(** Two advances into a listing of three pages. *)
Lemma generator_after_two_advances :
  let srv := Fixtures.serve Fixtures.three_pages in
  let H := Fixtures.runtime srv in
  let g := Fixtures.generator srv (Fixtures.get_orders None) (Some "token") in
  let s := advance 2 (g, Fixtures.world0) in
  ESIPageGenerator.__init__ (requests_future g)
    (Some (Fixtures.get_orders None)) None = Ok g /\
  1 <= page (fst s) <= 1 + Z.of_nat 2 /\
  (stop (fst s) = true -> num_pages (fst s) < page (fst s)) /\
  (stop (fst s) = true ->
   forall j, advance j s = s /\
             ESIPageGenerator.__next__ s = (Raise StopIteration, s)).
Proof.
  intros srv H g s. split; [reflexivity|].
  exact (generator_invariant (requests_future g)
           (Some (Fixtures.get_orders None)) None g Fixtures.world0 2 eq_refl).
Defined.

Section Mapping.
Context {CS : Type} `{!Runtime CS}.
Import ESIPageGenerator.

(** X13.  [get] on a 400 or a 500 whose request had to ask the server: the
    caller gets [ESIError] with [str] of bravado's HTTP error as its message;
    only the call is added to the log. *)
Theorem get_wraps_bad_request_and_server_error (s : state CS) :
  misses_cache s ->
  Response.status_code (response_of s) = 400 \/
  Response.status_code (response_of s) = 500 ->
  get s = (Raise (ESIError (PStr (http_error_str (response_of s)))),
           log_call (prepare (requests_future (fst s))) s).
Proof.
  intros Hmiss Hst. unfold get, try_except.
  rewrite result_http_error by (done || lia).
  unfold make_http_exception. by destruct Hst as [-> | ->].
Qed.

(** X14.  [get] on a status outside 2xx that is none of 400, 403, 404 and
    500 (a 401, a 420 or a 502, say): bravado's HTTP error reaches the
    caller as it was raised, with only the call added to the log. *)
Theorem get_passes_other_http_errors (s : state CS) :
  misses_cache s ->
  let code := Response.status_code (response_of s) in
  ~ (200 <= code < 300) ->
  code <> 400 -> code <> 403 -> code <> 404 -> code <> 500 ->
  get s = (Raise (HTTPError (response_of s)),
           log_call (prepare (requests_future (fst s))) s).
Proof.
  intros Hmiss code Hst H400 H403 H404 H500. unfold get, try_except.
  rewrite result_http_error by done.
  unfold make_http_exception. fold code.
  apply Z.eqb_neq in H400, H403, H404, H500.
  by rewrite H400, H403, H404, H500.
Qed.

Lemma dict_get_absent (d : dict) (k : string) (dflt : PyVal) :
  dict_contains d k = false -> dict_get d k dflt = dflt.
Proof.
  unfold dict_contains. induction d as [|[k' v] d IH]; cbn; [done|].
  intros [Hk Hd]%orb_false_iff. rewrite Hk. by apply IH.
Qed.

(** X15.  [get] on a 404 whose request had to ask the server always raises
    [ESINotFound] with a string as message: for a body that is no JSON the
    text of the decoding error; for a JSON object [str] of its [error]
    member, and [Not found] when it has none; for JSON that is no object the
    text of the [AttributeError] of calling [get] on it. *)
Theorem not_found_message_fallbacks (s : state CS) :
  misses_cache s ->
  Response.status_code (response_of s) = 404 ->
  exists m,
    get s = (Raise (ESINotFound (PStr m)),
             log_call (prepare (requests_future (fst s))) s) /\
    match json_loads (Response.text (response_of s)) with
    | inl decode_error => m = decode_error
    | inr (PDict d) =>
        m = py_str (dict_get d "error" (PStr "Not found")) /\
        (dict_contains d "error" = false -> m = "Not found")
    | inr v => m = "'" +:+ type_name v +:+ "' object has no attribute 'get'"
    end.
Proof.
  intros Hmiss Hst. unfold get, try_except at 1.
  rewrite result_http_error by (done || lia).
  unfold make_http_exception. rewrite Hst. cbn.
  unfold try_except, loads, py_get. unfold_monad.
  destruct (json_loads _) as [m|[]]; cbn; eexists; (split; [reflexivity|]);
    try done.
  split; [done|]. intros Habs. by rewrite dict_get_absent.
Qed.

Lemma init_fields (rf : RequestsFuture.t) (op : option (Operation CS))
    (c : option (CacheObject CS)) :
  match ESIPageGenerator.__init__ rf op c with
  | Ok g =>
      g = {| requests_future := rf; operation := op; page := 1;
             num_pages := 1; stop := false; cache := c |}
  | Raise e => e = AssertionError /\ c <> None
  end.
Proof.
  unfold ESIPageGenerator.__init__. destruct c as [c|]; [|done].
  destruct (negb (callable (cache_get c))); [done|].
  destruct (negb (callable (cache_set c))); [done|].
  by destruct (negb (callable (cache_contains c))).
Qed.

(** X16.  A call returns a generator only for an operation that declares
    [page], and then nothing has been sent and the cache is untouched: the
    generator is at page 1, not stopped, with the cache of the client.  It
    returns a resolved value only for an operation without [page], after at
    most one call.  A call of a paginated operation never changes the
    world. *)
Theorem call_is_lazy_iff_paginated
    (self : ESICallableOperation CS)
    (_token : option string) (op_kwargs : dict) (w : World CS) :
  let outcome := ESICallableOperation.__call__ self _token op_kwargs w in
  let op := co_operation self in
  (forall g, fst outcome = Ok (Generator g) ->
     ESIRequestsClient.has_page op = true /\
     snd outcome = w /\
     page g = 1 /\ num_pages g = 1 /\ stop g = false /\
     cache g = client_cache (http_client op)) /\
  (forall v, fst outcome = Ok (Value v) ->
     ESIRequestsClient.has_page op = false /\
     exists calls, net_log (snd outcome) = net_log w ++ calls /\
                   (length calls <= 1)%nat) /\
  (ESIRequestsClient.has_page op = true -> snd outcome = w).
Proof.
  intros outcome op. subst outcome.
  unfold ESICallableOperation.__call__. fold op.
  destruct (construct_request op op_kwargs) as [rp|e]; unfold_monad;
    [|by repeat split].
  destruct (_ && _); [by repeat split|].
  unfold ESIRequestsClient.request.
  match goal with
  | |- context [ESIPageGenerator.__init__ ?rf ?o ?c] =>
      assert (Hinit := init_fields rf o c);
      destruct (ESIPageGenerator.__init__ rf o c) as [g0|e0]
  end.
  - subst g0. destruct (ESIRequestsClient.has_page op) eqn:Hpage.
    + cbn. split; [intros g [= <-]; cbn; by repeat split|].
      split; [intros v ?; simplify_eq|done].
    + match goal with
      | |- context [get ?s0] =>
          destruct (fetch_effect_log s0 (fst (get s0)) (snd (get s0))
                      (proj1 (get_effect s0))) as [Hl|Hl];
          destruct (get s0) as [[v|e] s']
      end; cbn [fst snd] in *;
        (split; [intros g ?; simplify_eq|]); (split; [|done]); try done;
        intros v0 _; (split; [done|]).
      * exists []. rewrite app_nil_r. split; [exact Hl|cbn; lia].
      * eexists [_]. split; [exact Hl|]. cbn. lia.
  - destruct (ESIRequestsClient.has_page op); cbn; by repeat split.
Qed.

End Mapping.

(** A status call answered with a 500. *)
Lemma get_wraps_500 :
  let srv := Fixtures.refuse 500 "{}" in
  let H := Fixtures.runtime srv in
  let s := (Fixtures.generator srv (Fixtures.get_status None) None,
            Fixtures.world0) in
  misses_cache s /\
  (Response.status_code (response_of s) = 400 \/
   Response.status_code (response_of s) = 500) /\
  ESIPageGenerator.get s
  = (Raise (ESIError (PStr (http_error_str (response_of s)))),
     ESIPageGenerator.log_call (prepare (requests_future (fst s))) s).
Proof.
  intros srv H s.
  assert (Hmiss : misses_cache s) by exact I.
  split; [exact Hmiss|]. split; [by right|].
  exact (get_wraps_bad_request_and_server_error s Hmiss (or_intror eq_refl)).
Defined.

(** A status call answered with a 502. *)
Lemma get_passes_502 :
  let srv := Fixtures.refuse 502 "Bad Gateway" in
  let H := Fixtures.runtime srv in
  let s := (Fixtures.generator srv (Fixtures.get_status None) None,
            Fixtures.world0) in
  misses_cache s /\
  Response.status_code (response_of s) = 502 /\
  ESIPageGenerator.get s
  = (Raise (HTTPError (response_of s)),
     ESIPageGenerator.log_call (prepare (requests_future (fst s))) s).
Proof.
  intros srv H s.
  assert (Hmiss : misses_cache s) by exact I.
  split; [exact Hmiss|]. split; [reflexivity|].
  refine (get_passes_other_http_errors s Hmiss _ _ _ _ _); cbn; lia.
Defined.

(** A 404 whose body is an object without an [error] member. *)
Lemma get_not_found_without_error_member :
  let srv := Fixtures.refuse 404 Fixtures.detail_body in
  let H := Fixtures.runtime srv in
  let s := (Fixtures.generator srv (Fixtures.get_status None) None,
            Fixtures.world0) in
  misses_cache s /\
  Response.status_code (response_of s) = 404 /\
  json_loads (Response.text (response_of s))
  = inr (PDict [("detail", PStr "gone")]) /\
  exists m,
    ESIPageGenerator.get s
    = (Raise (ESINotFound (PStr m)),
       ESIPageGenerator.log_call (prepare (requests_future (fst s))) s) /\
    match json_loads (Response.text (response_of s)) with
    | inl decode_error => m = decode_error
    | inr (PDict d) =>
        m = py_str (dict_get d "error" (PStr "Not found")) /\
        (dict_contains d "error" = false -> m = "Not found")
    | inr v => m = "'" +:+ type_name v +:+ "' object has no attribute 'get'"
    end.
Proof.
  intros srv H s.
  assert (Hmiss : misses_cache s) by exact I.
  split; [exact Hmiss|]. split; [reflexivity|]. split; [reflexivity|].
  exact (not_found_message_fallbacks s Hmiss eq_refl).
Defined.

Section Transport.
Context {CS : Type} `{!Runtime CS}.
Import ESIPageGenerator.

Lemma fold_headers_keep (name : string) (l : list (string * string))
    (h : gmap string string) :
  (forall kv, In kv l -> lower (fst kv) <> lower name) ->
  ci_get (fold_left (fun h kv => ci_set h (fst kv) (snd kv)) l h) name
  = ci_get h name.
Proof.
  revert h. induction l as [|kv l IH]; intros h Hl; [done|].
  cbn [fold_left]. rewrite IH by (intros kv' Hin; apply Hl; by right).
  unfold ci_get, ci_set. rewrite lookup_insert_ne; [done|].
  apply Hl. by left.
Qed.

Lemma session_user_agent (self : ESIRequestsClient CS)
    (token : option string) :
  ci_get (ESIRequestsClient.session self token) "User-Agent"
  = Some (user_agent self).
Proof.
  unfold ESIRequestsClient.session, ci_get, ci_set.
  by rewrite lookup_insert_eq.
Qed.

Lemma session_authorization (self : ESIRequestsClient CS) (token : string) :
  token <> "" ->
  ci_get (ESIRequestsClient.session self (Some token)) "Authorization"
  = Some ("Bearer " +:+ token).
Proof.
  intros Hne. unfold ESIRequestsClient.session, ci_get, ci_set.
  destruct (String.eqb_spec token ""); [done|]. cbn [negb].
  rewrite lookup_insert_ne by done. by rewrite lookup_insert_eq.
Qed.

(** X17.  Every call on the wire carries the user agent of the client
    and, when a non-empty token was given, the header
    [Authorization: Bearer <token>]: the call a non-paginated operation
    sends, and every call of the iteration of the generator a paginated one
    returns.  The headers of the request parameters are assumed to set
    neither. *)
Theorem every_call_carries_user_agent_and_token
    (op : Operation CS) (op_kwargs : dict) (request_params : RequestParams)
    (token : option string) (w : World CS) :
  construct_request op op_kwargs = Ok request_params ->
  (forall kv, In kv (rp_headers request_params) ->
     lower (fst kv) <> "authorization" /\ lower (fst kv) <> "user-agent") ->
  let outcome :=
    ESICallableOperation.__call__ (ESICallableOperation.__init__ op)
      token op_kwargs w in
  let signed (c : Sent.t) :=
    ci_get (Sent.headers c) "User-Agent" = Some (user_agent (http_client op)) /\
    forall t, token = Some t -> t <> "" ->
      ci_get (Sent.headers c) "Authorization" = Some ("Bearer " +:+ t) in
  (exists calls,
     net_log (snd outcome) = net_log w ++ calls /\ Forall signed calls) /\
  (forall g fuel r s',
     fst outcome = Ok (Generator g) ->
     iterate fuel (g, snd outcome) = Some (r, s') ->
     exists calls,
       net_log (snd s') = net_log (snd outcome) ++ calls /\
       Forall signed calls).
Proof.
  intros Hreq Hhdr outcome signed.
  set (rf := {| RequestsFuture.session_headers :=
                  ESIRequestsClient.session (http_client op) token;
                RequestsFuture.request :=
                  ESIRequestsClient.authenticated_request request_params |}).
  assert (Hprep : forall c, Sent.headers c = prepare_headers rf -> signed c).
  { intros c Hc. unfold signed. rewrite Hc. unfold prepare_headers. split.
    - rewrite (fold_headers_keep "User-Agent")
        by (intros kv Hin; apply (Hhdr kv Hin)).
      apply session_user_agent.
    - intros t -> Hne.
      rewrite (fold_headers_keep "Authorization")
        by (intros kv Hin; apply (Hhdr kv Hin)).
      by apply session_authorization. }
  assert (Hsends : forall (s s' : state CS),
            prepare_headers (requests_future (fst s)) = prepare_headers rf ->
            sends_only (prepare_headers (requests_future (fst s))) s s' ->
            exists calls,
              net_log (snd s') = net_log (snd s) ++ calls /\
              Forall signed calls).
  { intros s s' Hrf [_ (calls & Hlog & Hall)]. exists calls. split; [done|].
    eapply Forall_impl; [exact Hall|]. cbn. intros c Hc. apply Hprep.
    by rewrite Hc. }
  assert (Hnone : exists calls, net_log w = net_log w ++ calls /\
                                Forall signed calls).
  { exists []. by rewrite app_nil_r. }
  subst outcome. unfold ESICallableOperation.__call__.
  cbn [co_operation ESICallableOperation.__init__ require_authorization].
  rewrite Hreq. destruct (_ && _); [by split|].
  unfold ESIRequestsClient.request. fold rf.
  assert (Hinit := init_fields rf (Some op) (client_cache (http_client op))).
  destruct (ESIPageGenerator.__init__ rf (Some op)
              (client_cache (http_client op))) as [g|e].
  - subst g. destruct (ESIRequestsClient.has_page op).
    + cbn [fst snd]. split; [done|].
      intros g fuel r s' [= <-] Hit. apply iterate_sends_only in Hit.
      eapply (Hsends (_, w)); [|exact Hit]. done.
    + match goal with
      | |- context [get ?s0] =>
          assert (Hget := get_sends_only s0);
          destruct (get s0) as [[v|e] s']
      end; cbn [fst snd] in *;
        (split; [eapply (Hsends (_, w)); [|exact Hget]; done
                | by intros g fuel r s'' ?]).
  - destruct (ESIRequestsClient.has_page op); cbn [fst snd]; by split.
Qed.

Lemma request_never_authorization_error
    (self : ESIRequestsClient CS) (request_params : RequestParams)
    (operation : option (Operation CS)) (token : option string)
    (w : World CS) (msg : PyVal) :
  fst (ESIRequestsClient.request self request_params operation token w)
  <> Raise (ESIAuthorizationError msg).
Proof.
  unfold ESIRequestsClient.request.
  match goal with
  | |- context [ESIPageGenerator.__init__ ?rf ?o ?c] =>
      assert (Hinit := init_fields rf o c);
      destruct (ESIPageGenerator.__init__ rf o c) as [g|e]
  end.
  - destruct (match operation with Some _ => _ | None => _ end); [done|].
    assert (Hne := get_never_authorization_error (g, w) msg).
    destruct (get (g, w)) as [[v|e] s']; cbn [fst] in *; [done|].
    intros [= ->]. by apply Hne.
  - destruct Hinit as [-> _].
    by destruct (match operation with Some _ => _ | None => _ end).
Qed.

(** X18.  On arguments bravado accepts, a call ends in
    [ESIAuthorizationError] exactly when no token was given and the
    operation requires [evesso]: the transport and the fetch never raise
    it. *)
Theorem authorization_error_iff_required_token_missing
    (op : Operation CS) (token : option string) (op_kwargs : dict)
    (request_params : RequestParams) (w : World CS) :
  construct_request op op_kwargs = Ok request_params ->
  (exists msg,
     fst (ESICallableOperation.__call__ (ESICallableOperation.__init__ op)
            token op_kwargs w)
     = Raise (ESIAuthorizationError msg))
  <->
  token = None /\
  exists spec, In spec (security_specs op) /\ is_Some (spec !! "evesso").
Proof.
  intros Hreq. unfold ESICallableOperation.__call__.
  cbn [co_operation ESICallableOperation.__init__ require_authorization].
  rewrite Hreq.
  assert (Hev : existsb ESICallableOperation.has_evesso (security_specs op)
                = true <->
                exists spec, In spec (security_specs op) /\
                             is_Some (spec !! "evesso")).
  { rewrite existsb_exists. unfold ESICallableOperation.has_evesso.
    split; intros (spec & Hin & Hs); exists spec; (split; [done|]).
    - by destruct (spec !! "evesso").
    - by destruct Hs as [x ->]. }
  destruct (existsb _ _) eqn:Hex; destruct token as [t|]; cbn [andb].
  2: { split; [intros _|by eexists]. split; [done|]. by apply Hev. }
  all: split;
    [intros [msg Hr]; by apply request_never_authorization_error in Hr|].
  - by intros [[=] _].
  - by intros [[=] _].
  - intros [_ Hs%Hev]. done.
Qed.

Lemma get_ok (s s' : state CS) (v : PyVal) :
  result s = (Ok v, s') -> get s = (Ok v, s').
Proof. intros Hres. unfold get, try_except. by rewrite Hres. Qed.

(** X19.  The cache is shared across tokens.  Through a client with a
    cache that keeps what it is given, a call of a non-paginated operation
    that misses the cache and gets a successful answer with a readable
    [X-Pages] and a valid [Expires] sends one call and returns its payload;
    the same call made afterwards with any other token (or none) returns
    that payload without a call. *)
Theorem cached_answer_served_whatever_the_token
    (self : ESIRequestsClient CS) (request_params : RequestParams)
    (operation : option (Operation CS)) (token1 token2 : option string)
    (w : World CS) (c : CacheObject CS)
    (fcontains : CS -> Z -> bool) (fget : CS -> Z -> option (PyVal * Z))
    (fset : CS -> Z -> PyVal * Z -> datetime_t -> CS)
    (n : Z) (v : string) (t : struct_time) (e : datetime_t) :
  match operation with
  | Some op => ESIRequestsClient.has_page op
  | None => false
  end = false ->
  client_cache self = Some c ->
  cache_contains c = Callable fcontains ->
  cache_get c = Callable fget ->
  cache_set c = Callable fset ->
  (forall st k value expires,
     fcontains (fset st k value expires) k = true /\
     fget (fset st k value expires) k = Some value) ->
  let future token :=
    {| RequestsFuture.session_headers := ESIRequestsClient.session self token;
       RequestsFuture.request :=
         ESIRequestsClient.authenticated_request request_params |} in
  let g token :=
    {| requests_future := future token; operation := operation;
       page := 1; num_pages := 1; stop := false; cache := Some c |} in
  let call := prepare (future token1) in
  let response := server (length (net_log w)) call in
  fcontains (cache_store w) (_get_cache_key (g token1)) = false ->
  200 <= Response.status_code response < 300 ->
  int_of_str (default "1" (ci_get (Response.headers response) "x-pages"))
  = Some n ->
  ci_get (Response.headers response) "expires" = Some v ->
  parsedate_str v = Some t ->
  datetime (tm_year t) (tm_mon t) (tm_mday t)
           (tm_hour t) (tm_min t) (tm_sec t) (tm_wday t) UTC = Some e ->
  exists w1,
    ESIRequestsClient.request self request_params operation token1 w
    = (Ok (Value (Response.swagger_result response)), w1) /\
    net_log w1 = net_log w ++ [call] /\
    ESIRequestsClient.request self request_params operation token2 w1
    = (Ok (Value (Response.swagger_result response)), w1).
Proof.
  intros Hpage Hc Hcont Hget Hset Hkeeps future g call response Hmiss Hst Hint
    Hexp Hdate Hdt.
  assert (Hinit : forall token,
            ESIPageGenerator.__init__ (future token) operation
              (client_cache self) = Ok (g token)).
  { intros token. rewrite Hc. unfold ESIPageGenerator.__init__.
    by rewrite Hcont, Hget, Hset. }
  assert (Hfirst := result_miss_stores (g token1, w) c fcontains fset n v t e
                      eq_refl Hcont Hset Hmiss Hst Hint Hexp Hdate Hdt).
  apply get_ok in Hfirst.
  eexists. split; [|split].
  - unfold ESIRequestsClient.request. rewrite Hpage.
    fold (future token1). rewrite (Hinit token1). by rewrite Hfirst.
  - reflexivity.
  - unfold ESIRequestsClient.request. rewrite Hpage.
    fold (future token2). rewrite (Hinit token2).
    assert (Hkey : _get_cache_key (g token2) = _get_cache_key (g token1)).
    { unfold _get_cache_key. f_equal. }
    destruct (Hkeeps (cache_store w) (_get_cache_key (g token1))
                (Response.swagger_result response, n) e) as [Hin Hval].
    match goal with
    | |- context [get (g token2, ?w1)] =>
        assert (Hsecond : result (g token2, w1)
                          = (Ok (Response.swagger_result response),
                             set_num_pages n (g token2, w1)))
    end.
    { apply (result_hit _ c fcontains fget); [done|done|done|..];
        cbn [fst snd set_cache_store set_num_pages log_call cache_store];
        rewrite Hkey; assumption. }
    apply get_ok in Hsecond. rewrite Hsecond. reflexivity.
Qed.

End Transport.

(** The listing of orders called with the token [abc]. *)
Lemma orders_calls_carry_token :
  let srv := Fixtures.serve Fixtures.three_pages in
  let H := Fixtures.runtime srv in
  let op := Fixtures.get_orders None in
  let token := Some "abc" in
  let w := Fixtures.world0 in
  construct_request op [] = Ok Fixtures.request_params /\
  (forall kv, In kv (rp_headers Fixtures.request_params) ->
     lower (fst kv) <> "authorization" /\ lower (fst kv) <> "user-agent") /\
  let outcome :=
    ESICallableOperation.__call__ (ESICallableOperation.__init__ op)
      token [] w in
  let signed (c : Sent.t) :=
    ci_get (Sent.headers c) "User-Agent" = Some (user_agent (http_client op)) /\
    forall t, token = Some t -> t <> "" ->
      ci_get (Sent.headers c) "Authorization" = Some ("Bearer " +:+ t) in
  (exists calls,
     net_log (snd outcome) = net_log w ++ calls /\ Forall signed calls) /\
  (forall g fuel r s',
     fst outcome = Ok (Generator g) ->
     ESIPageGenerator.iterate fuel (g, snd outcome) = Some (r, s') ->
     exists calls,
       net_log (snd s') = net_log (snd outcome) ++ calls /\
       Forall signed calls).
Proof.
  intros srv H op token w.
  assert (Hhdr : forall kv, In kv (rp_headers Fixtures.request_params) ->
            lower (fst kv) <> "authorization" /\ lower (fst kv) <> "user-agent").
  { intros kv []. }
  split; [reflexivity|]. split; [exact Hhdr|].
  exact (every_call_carries_user_agent_and_token op [] Fixtures.request_params
           token w eq_refl Hhdr).
Defined.

(** The listing of orders called without a token. *)
Lemma orders_without_token_authorization_error :
  let srv := Fixtures.serve Fixtures.three_pages in
  let H := Fixtures.runtime srv in
  let op := Fixtures.get_orders None in
  construct_request op [] = Ok Fixtures.request_params /\
  ((exists msg,
      fst (ESICallableOperation.__call__ (ESICallableOperation.__init__ op)
             None [] Fixtures.world0)
      = Raise (ESIAuthorizationError msg))
   <->
   None = None (A := string) /\
   exists spec, In spec (security_specs op) /\ is_Some (spec !! "evesso")).
Proof.
  intros srv H op. split; [reflexivity|].
  exact (authorization_error_iff_required_token_missing op None []
           Fixtures.request_params Fixtures.world0 eq_refl).
Defined.

(** A status call made with the token of one user and then with the token of
    another, through a client with [Fixtures.dict_cache]. *)
Lemma status_cached_for_alice_served_to_bob :
  let srv := Fixtures.serve Fixtures.three_pages_expiring in
  let H := Fixtures.runtime srv in
  let c := Fixtures.dict_cache in
  let self := Fixtures.client (Some c) in
  let operation := Some (Fixtures.get_status (Some c)) in
  let w := Fixtures.world0 in
  let future token :=
    {| RequestsFuture.session_headers := ESIRequestsClient.session self token;
       RequestsFuture.request :=
         ESIRequestsClient.authenticated_request Fixtures.request_params |} in
  let call := prepare (future (Some "alice")) in
  let response := server (length (net_log w)) call in
  (forall (st : Fixtures.store) k value expires,
     (match <[k := (value, expires)]> st !! k with
      | Some _ => true | None => false end) = true /\
     fst <$> <[k := (value, expires)]> st !! k = Some value) /\
  exists w1,
    ESIRequestsClient.request self Fixtures.request_params operation
      (Some "alice") w
    = (Ok (Value (Response.swagger_result response)), w1) /\
    net_log w1 = net_log w ++ [call] /\
    ESIRequestsClient.request self Fixtures.request_params operation
      (Some "bob") w1
    = (Ok (Value (Response.swagger_result response)), w1).
Proof.
  intros srv H c self operation w future call response.
  assert (Hlaw : forall (st : Fixtures.store) k value expires,
     (match <[k := (value, expires)]> st !! k with
      | Some _ => true | None => false end) = true /\
     fst <$> <[k := (value, expires)]> st !! k = Some value).
  { intros st k value expires. unfold Fixtures.store in *.
    by rewrite lookup_insert_eq. }
  split; [exact Hlaw|].
  refine (cached_answer_served_whatever_the_token self Fixtures.request_params
            operation (Some "alice") (Some "bob") w c _ _ _ 3
            "Sat, 31 Oct 2026 11:05:00 GMT" _ _
            eq_refl eq_refl eq_refl eq_refl eq_refl Hlaw eq_refl _
            eq_refl eq_refl eq_refl eq_refl).
  cbn. lia.
Defined.

Section FacadeTheorems.
Context {CS : Type} `{!Runtime CS} `{!Loader CS}.

(** X20.  [get_swagger_spec] makes one GET, of
    [<endpoint>?datasource=<datasource>], and either returns the parsed spec
    and logs a debug record, or raises [ESIError] whose message is [str] of
    what went wrong (the exception of the GET, the HTTP error of the status,
    the JSON decoding error) and logs the same text as an error.  It raises
    nothing else. *)
Theorem get_swagger_spec_raises_only_esi_error
    (endpoint datasource : string) (d : Downloads) :
  let url := endpoint +:+ "?datasource=" +:+ datasource in
  let n := length (requested d) in
  let outcome := ESIClient.get_swagger_spec endpoint datasource d in
  requested (snd outcome) = requested d ++ [url] /\
  ((exists spec resp,
      fst outcome = Ok spec /\
      requests_get n url = inr resp /\
      ~ (400 <= dl_status resp < 600) /\
      json_loads (dl_text resp) = inr spec /\
      log_records (snd outcome)
      = log_records d
        ++ [(DEBUG, "Swagger spec downloaded and parsed in "
                    +:+ elapsed n +:+ " seconds")])
   \/
   (exists cause,
      fst outcome = Raise (ESIError (PStr cause)) /\
      log_records (snd outcome)
      = log_records d ++ [(ERROR, "Could not connect to ESI: " +:+ cause)] /\
      (requests_get n url = inl cause \/
       exists resp,
         requests_get n url = inr resp /\
         (raise_for_status resp = Some cause \/
          (raise_for_status resp = None /\
           json_loads (dl_text resp) = inl cause))))).
Proof.
  intros url n outcome. subst outcome.
  unfold ESIClient.get_swagger_spec, ESIClient._generate_esi_endpoint,
    ESIClient.download.
  unfold_monad. cbn [fst snd ESIClient.record_download requested].
  fold url n. split; [by destruct (requests_get n url) as [?|resp];
    [|destruct (raise_for_status resp); [|destruct (json_loads _)]]|].
  destruct (requests_get n url) as [msg|resp] eqn:Hget.
  - right. exists msg. cbn. split; [done|]. split; [done|]. by left.
  - destruct (raise_for_status resp) as [msg|] eqn:Hst.
    + right. exists msg. cbn. split; [done|]. split; [done|].
      right. exists resp. split; [done|]. by left.
    + destruct (json_loads (dl_text resp)) as [msg|spec] eqn:Hjson.
      * right. exists msg. cbn. split; [done|]. split; [done|].
        right. exists resp. split; [done|]. by right.
      * left. exists spec, resp. cbn. split; [done|]. split; [done|].
        split; [|done]. unfold raise_for_status in Hst.
        destruct ((400 <=? dl_status resp) && (dl_status resp <? 500)) eqn:H4;
          [done|].
        destruct ((500 <=? dl_status resp) && (dl_status resp <? 600)) eqn:H5;
          [done|].
        apply andb_false_iff in H4, H5. lia.
Qed.

(** X21.  The answer to the download is judged by [raise_for_status]: a
    status from 400 to 599 gives [ESIError] with the message of requests'
    HTTP error, whatever the body; any other status, 2xx or not, with a body
    that parses gives the parsed spec. *)
Theorem spec_download_by_status
    (endpoint datasource : string) (d : Downloads) (resp : Download) :
  let url := endpoint +:+ "?datasource=" +:+ datasource in
  requests_get (length (requested d)) url = inr resp ->
  let outcome := fst (ESIClient.get_swagger_spec endpoint datasource d) in
  (400 <= dl_status resp < 600 ->
     exists kind,
       (kind = "Client" /\ dl_status resp < 500 \/
        kind = "Server" /\ 500 <= dl_status resp) /\
       outcome
       = Raise (ESIError
                  (PStr (pretty (dl_status resp) +:+ " " +:+ kind
                         +:+ " Error: " +:+ dl_reason resp
                         +:+ " for url: " +:+ dl_url resp)))) /\
  (~ (400 <= dl_status resp < 600) ->
     forall spec, json_loads (dl_text resp) = inr spec -> outcome = Ok spec).
Proof.
  intros url Hget outcome. subst outcome.
  unfold ESIClient.get_swagger_spec, ESIClient._generate_esi_endpoint,
    ESIClient.download.
  unfold_monad. cbn [fst snd ESIClient.record_download requested].
  fold url. rewrite Hget. unfold raise_for_status. split.
  - intros Hst.
    destruct (Z.lt_ge_cases (dl_status resp) 500) as [Hlt|Hge].
    + exists "Client". split; [by left|].
      replace ((400 <=? dl_status resp) && (dl_status resp <? 500)) with true
        by (symmetry; apply andb_true_iff; split;
            [apply Z.leb_le | apply Z.ltb_lt]; lia).
      done.
    + exists "Server". split; [by right|].
      replace ((400 <=? dl_status resp) && (dl_status resp <? 500)) with false
        by (symmetry; apply andb_false_iff; right; apply Z.ltb_ge; lia).
      replace ((500 <=? dl_status resp) && (dl_status resp <? 600)) with true
        by (symmetry; apply andb_true_iff; split;
            [apply Z.leb_le | apply Z.ltb_lt]; lia).
      done.
  - intros Hst spec Hjson.
    replace ((400 <=? dl_status resp) && (dl_status resp <? 500)) with false.
    2: { symmetry. apply andb_false_iff.
         destruct (Z.lt_ge_cases (dl_status resp) 400);
           [left; apply Z.leb_gt | right; apply Z.ltb_ge]; lia. }
    replace ((500 <=? dl_status resp) && (dl_status resp <? 600)) with false.
    2: { symmetry. apply andb_false_iff.
         destruct (Z.lt_ge_cases (dl_status resp) 500);
           [left; apply Z.leb_gt | right; apply Z.ltb_ge]; lia. }
    by rewrite Hjson.
Qed.

(** X22.  [get_client] downloads the spec once, from the URL it then
    gives to bravado-core as the origin of the spec.  A failed download
    reaches the caller as the [ESIError] of [get_swagger_spec]; a spec that
    bravado-core refuses reaches the caller as bravado-core's exception,
    unwrapped.  The client it returns has the user agent and the cache
    given, and its resources are what bravado-core built for that HTTP
    client. *)
Theorem get_client_wiring
    (agent : string) (use_models : bool) (endpoint datasource : string)
    (cache : option (CacheObject CS)) (d : Downloads) :
  let url := endpoint +:+ "?datasource=" +:+ datasource in
  let download := ESIClient.get_swagger_spec endpoint datasource d in
  let outcome :=
    ESIClient.get_client agent use_models endpoint datasource cache d in
  snd outcome = snd download /\
  requested (snd outcome) = requested d ++ [url] /\
  (forall e, fst download = Raise e -> fst outcome = Raise e) /\
  (forall spec e,
     fst download = Ok spec ->
     from_dict spec url (ESIRequestsClient.__init__ agent cache) use_models
     = Raise e ->
     fst outcome = Raise e) /\
  (forall client, fst outcome = Ok client ->
     exists spec,
       fst download = Ok spec /\
       from_dict spec url (ESIClient.http_client client) use_models
       = Ok (resources (ESIClient.swagger_spec client)) /\
       origin_url (ESIClient.swagger_spec client) = url /\
       user_agent (ESIClient.http_client client) = agent /\
       ESIClient.cache client = cache).
Proof.
  intros url download outcome.
  assert (Hrequested : requested (snd download) = requested d ++ [url]).
  { subst download.
    unfold ESIClient.get_swagger_spec, ESIClient._generate_esi_endpoint.
    unfold_monad. cbn [fst snd ESIClient.record_download requested].
    fold url. by destruct (ESIClient.download _ url). }
  subst outcome. unfold ESIClient.get_client. unfold_monad.
  fold download. destruct download as [[spec|e] d'] eqn:Hdl; cbn [fst snd] in *.
  - unfold ESIClient.__init__, ESIClient._generate_esi_endpoint. fold url.
    destruct (from_dict spec url _ use_models) as [res|e] eqn:Hfrom;
      cbn [fst snd].
    + split; [done|]. split; [done|]. split; [done|].
      split; [intros spec' e [= <-]; congruence|].
      intros client [= <-]. exists spec. by cbn.
    + split; [done|]. split; [done|]. split; [done|].
      split; [intros spec' e' [= <-]; congruence|done].
  - split; [done|]. split; [done|]. split; [by intros e' [= <-]|].
    split; [by intros spec e'|done].
Qed.

Lemma call_generator
    (self : ESICallableOperation CS) (token : option string)
    (op_kwargs : dict) (w : World CS) (g : ESIPageGenerator CS) :
  fst (ESICallableOperation.__call__ self token op_kwargs w)
  = Ok (Generator g) ->
  ESIRequestsClient.has_page (co_operation self) = true /\
  snd (ESICallableOperation.__call__ self token op_kwargs w) = w /\
  page g = 1 /\ num_pages g = 1 /\ stop g = false /\
  cache g = client_cache (http_client (co_operation self)).
Proof.
  unfold ESICallableOperation.__call__.
  destruct (construct_request _ op_kwargs) as [rp|e]; unfold_monad; [|done].
  destruct (_ && _); [done|].
  unfold ESIRequestsClient.request.
  match goal with
  | |- context [ESIPageGenerator.__init__ ?rf ?o ?c] =>
      assert (Hinit := init_fields rf o c);
      destruct (ESIPageGenerator.__init__ rf o c) as [g0|e0]
  end.
  - subst g0. destruct (ESIRequestsClient.has_page _).
    + cbn. by intros [= <-].
    + destruct (ESIPageGenerator.get _) as [[v|e] s']; cbn; done.
  - by destruct (ESIRequestsClient.has_page _).
Qed.

(** X23.  Assigning the [cache] property changes the cache the calls
    use: the property then reads the cache assigned, the user agent and the
    spec are as before, a call of a declared operation is the call of that
    operation on an HTTP client with the new cache, and a generator it
    returns holds the new cache. *)
Theorem cache_setter_reaches_later_calls
    (self : ESIClient.t CS) (c : option (CacheObject CS))
    (item name : string) (token : option string) (op_kwargs : dict)
    (w : World CS) :
  let self' := ESIClient.set_cache c self in
  ESIClient.cache self' = c /\
  user_agent (ESIClient.http_client self')
  = user_agent (ESIClient.http_client self) /\
  ESIClient.swagger_spec self' = ESIClient.swagger_spec self /\
  (forall g, fst (invoke self' item name token op_kwargs w) = Ok (Generator g) ->
     cache g = c) /\
  (forall resource decl,
     resources (ESIClient.swagger_spec self) !! item = Some resource ->
     res_operations resource !! name = Some decl ->
     invoke self' item name token op_kwargs w
     = ESICallableOperation.__call__
         (ESICallableOperation.__init__
            (bind_operation
               {| user_agent := user_agent (ESIClient.http_client self);
                  client_cache := c |} decl))
         token op_kwargs w).
Proof.
  intros self'. split; [done|]. split; [done|]. split; [done|].
  unfold invoke, ESIClient.__getattr__, ESIResourceDecorator.__getattr__,
    ESIResourceDecorator.resource_getattr.
  cbn [ESIClient.swagger_spec ESIClient.set_cache self'].
  split.
  - intros g.
    destruct (resources (ESIClient.swagger_spec self) !! item) as [resource|];
      [|done].
    destruct (res_operations resource !! name) as [decl|]; [|done].
    intros Hg. apply call_generator in Hg.
    by destruct Hg as (_ & _ & _ & _ & _ & ->).
  - intros resource decl Hres Hop. by rewrite Hres, Hop.
Qed.


End FacadeTheorems.

(** A download answered with a 503 whose body is a JSON object. *)
Lemma spec_download_refused_on_503 :
  let resp :=
    {| dl_status := 503; dl_reason := "Service Unavailable";
       dl_url := "https://esi.evetech.net/latest/swagger.json?datasource=tranquility";
       dl_text := Fixtures.detail_body |} in
  let H := Fixtures.runtime (Fixtures.serve []) in
  let L := Fixtures.loader resp in
  let endpoint := "https://esi.evetech.net/latest/swagger.json" in
  let datasource := "tranquility" in
  let d := {| requested := []; log_records := [] |} in
  let url := endpoint +:+ "?datasource=" +:+ datasource in
  requests_get (length (requested d)) url = inr resp /\
  let outcome := fst (ESIClient.get_swagger_spec endpoint datasource d) in
  (400 <= dl_status resp < 600 ->
     exists kind,
       (kind = "Client" /\ dl_status resp < 500 \/
        kind = "Server" /\ 500 <= dl_status resp) /\
       outcome
       = Raise (ESIError
                  (PStr (pretty (dl_status resp) +:+ " " +:+ kind
                         +:+ " Error: " +:+ dl_reason resp
                         +:+ " for url: " +:+ dl_url resp)))) /\
  (~ (400 <= dl_status resp < 600) ->
     forall spec, json_loads (dl_text resp) = inr spec -> outcome = Ok spec).
Proof.
  intros resp H L endpoint datasource d url. split; [reflexivity|].
  exact (spec_download_by_status endpoint datasource d resp eq_refl).
Defined.
